(** * classify.py: the capture / classify / render loop

    A shallow embedding of [src/Image Classification/classify.py] and the
    properties of its loop driver: the label lookup, the overlay texts, the
    rolling FPS measurement, and the order of the effects of one iteration.

    Python values are modelled as the interpreter has them: [int] as [Z],
    [float] as binary64 (Rocq's primitive floats), [str] as [string], a local
    variable that may not have been assigned yet as an [option].  The camera,
    the clock, the keyboard and the model are oracles of the [World]; every
    call that reaches them is logged in its trace. *)

From Stdlib Require Import ZArith List String Ascii Bool Lia Floats DecimalString.
From Stdlib.Strings Require Import Byte.
Import ListNotations.

Set Warnings "-inexact-float".
Local Open Scope string_scope.
Local Open Scope Z_scope.

(* ================================================================== *)
(** * Python numbers *)
(* ================================================================== *)

Module Py.

(** ** [float]: binary64 *)

(** The exact value of a finite float is [m * 2^e], kept as a fraction
    [num / den] of integers with [den] a power of two. *)
Definition exact_num (m : positive) (e : Z) : Z :=
  if 0 <=? e then Zpos m * 2 ^ e else Zpos m.
Definition exact_den (e : Z) : Z :=
  if 0 <=? e then 1 else 2 ^ (- e).

(** [floor (num / den)] rounded to the nearest integer, ties to even. *)
Definition round_half_even (num den : Z) : Z :=
  let q := num / den in
  let r := num mod den in
  match 2 * r ?= den with
  | Lt => q
  | Gt => q + 1
  | Eq => if Z.even q then q else q + 1
  end.

(** The float nearest to [num / den] (ties to even), with sign [s]: the
    quotient is taken with more than 64 significant bits and a sticky bit,
    then rounded once by [binary_normalize]. *)
Definition nearest_float (s : bool) (num den : Z) : float :=
  if num =? 0 then (if s then neg_zero else zero) else
  let k := Z.max 0 (66 + Z.log2 den - Z.log2 num) in
  let n := num * 2 ^ k in
  let q := n / den in
  let sticky := if n mod den =? 0 then 0 else 1 in
  let m := 2 * q + sticky in
  SF2Prim (binary_normalize prec emax (if s then - m else m) (- k - 1) s).

(** [round(x, ndigits)] on a float, for [0 <= ndigits] small (CPython's
    [double_round]): the exact value is rounded to [ndigits] decimals, ties
    to even, and the decimal is read back as the nearest float; nan, the
    infinities and the zeros round to themselves. *)
Definition round_float (x : float) (ndigits : Z) : float :=
  match Prim2SF x with
  | S754_finite s m e =>
      let p := 10 ^ ndigits in
      nearest_float s (round_half_even (exact_num m e * p) (exact_den e)) p
  | _ => x
  end.

(** ** [str(int)] *)
Definition str_int (z : Z) : string := NilZero.string_of_int (Z.to_int z).

(** ** [str(float)]: the shortest decimal that reads back as the float *)

Definition zeros (n : Z) : string :=
  string_of_list_ascii (repeat "0"%char (Z.to_nat n)).

(** Largest [p] with [10^(p-1) <= num/den], found from a binary estimate
    corrected by at most a few steps. *)
Definition le_pow10 (p num den : Z) : bool :=
  if 0 <=? p then 10 ^ p * den <=? num else den <=? num * 10 ^ (- p).

Fixpoint adjust_down (fuel : nat) (p num den : Z) : Z :=
  match fuel with
  | O => p
  | S f => if le_pow10 (p - 1) num den then p else adjust_down f (p - 1) num den
  end.
Fixpoint adjust_up (fuel : nat) (p num den : Z) : Z :=
  match fuel with
  | O => p
  | S f => if le_pow10 p num den then adjust_up f (p + 1) num den else p
  end.
Definition decimal_point (num den : Z) : Z :=
  let l := Z.log2 num - Z.log2 den in
  let p := l * 30103 / 100000 + 1 in
  adjust_up 4 (adjust_down 4 p num den) num den.

(** The digits of a finite positive float [m * 2^e] and the position of the
    decimal point: the value printed is [0.digits * 10^decpt]. *)
Record digits := { dg_int : Z; dg_decpt : Z }.

Section Shortest.
Variables (m : positive) (e : Z).

(** Everything is counted in units of [2^(e-2)]: the float is [4m], the
    midpoints to its neighbours are [lo] and [hi]. *)
Let unit_num : Z := if 2 <=? e then 2 ^ (e - 2) else 1.
Let unit_den : Z := if 2 <=? e then 1 else 2 ^ (2 - e).
Let x : Z := 4 * Zpos m.
Let hi : Z := x + 2.
Let lo : Z :=
  if (Zpos m =? 2 ^ 52) && (-1074 <? e) then x - 1 else x - 2.
Let closed : bool := Z.even (Zpos m).

Definition candidate (decpt nd : Z) : option digits :=
  let s := nd - decpt in
  let up := 10 ^ (Z.max s 0) * unit_num in
  let dn := 10 ^ (Z.max (- s) 0) * unit_den in
  let inside c :=
    if closed then (lo * up <=? c * dn) && (c * dn <=? hi * up)
    else (lo * up <? c * dn) && (c * dn <? hi * up) in
  let c0 := (x * up) / dn in
  let c1 := c0 + 1 in
  let pick c :=
    if c =? 10 ^ nd then Some {| dg_int := 1; dg_decpt := decpt + 1 |}
    else Some {| dg_int := c; dg_decpt := decpt |} in
  match inside c0, inside c1 with
  | true, true =>
      if x * up - c0 * dn <=? c1 * dn - x * up then pick c0 else pick c1
  | true, false => pick c0
  | false, true => pick c1
  | false, false => None
  end.

Fixpoint shortest_from (fuel : nat) (decpt nd : Z) : digits :=
  match fuel with
  | O => {| dg_int := 0; dg_decpt := decpt |}
  | S f =>
      match candidate decpt nd with
      | Some d => d
      | None => shortest_from f decpt (nd + 1)
      end
  end.

Definition shortest_digits : digits :=
  shortest_from 17 (decimal_point (x * unit_num) unit_den) 1.
End Shortest.

(** CPython's [format_float_short] for the code ['r']: fixed notation when
    [-4 < decpt <= 16], with [.0] added to an integer; otherwise exponent
    notation with at least two exponent digits. *)
Definition format_repr (d : digits) : string :=
  let ds := str_int (dg_int d) in
  let n := Z.of_nat (String.length ds) in
  let p := dg_decpt d in
  if (-4 <? p) && (p <=? 16) then
    if p <=? 0 then "0." ++ zeros (- p) ++ ds
    else if n <=? p then ds ++ zeros (p - n) ++ ".0"
    else substring 0 (Z.to_nat p) ds ++ "." ++
         substring (Z.to_nat p) (Z.to_nat (n - p)) ds
  else
    let ex := p - 1 in
    let mant := if n <=? 1 then ds
                else substring 0 1 ds ++ "." ++ substring 1 (Z.to_nat (n - 1)) ds in
    let exs := str_int (Z.abs ex) in
    mant ++ "e" ++ (if ex <? 0 then "-" else "+") ++
    (if Z.abs ex <? 10 then "0" ++ exs else exs).

Definition str_float (x : float) : string :=
  match Prim2SF x with
  | S754_nan => "nan"
  | S754_infinity s => if s then "-inf" else "inf"
  | S754_zero s => if s then "-0.0" else "0.0"
  | S754_finite s m e =>
      (if s then "-" else "") ++ format_repr (shortest_digits m e)
  end.

End Py.

(* ================================================================== *)
(** * The libraries the script calls *)
(* ================================================================== *)

(** ** cv2: frames and drawing *)
Module Cv2.

(** A pixel is three bytes in the channel order of its frame (BGR as the
    camera delivers it); a frame is a list of rows. *)
Record pixel := { ch0 : byte; ch1 : byte; ch2 : byte }.
Definition frame := list (list pixel).

(** [cv2.flip(src, flipCode)]: 0 flips around the x axis, a positive code
    around the y axis (each row is reversed), a negative code around both. *)
Definition flip (src : frame) (flipCode : Z) : frame :=
  if flipCode =? 0 then rev src
  else if 0 <? flipCode then map (@rev pixel) src
  else rev (map (@rev pixel) src).

Inductive color_code := COLOR_BGR2RGB.

Definition swap_rb (p : pixel) : pixel :=
  {| ch0 := ch2 p; ch1 := ch1 p; ch2 := ch0 p |}.

(** [cv2.cvtColor(src, code)] returns a new array. *)
Definition cvtColor (src : frame) (code : color_code) : frame :=
  match code with
  | COLOR_BGR2RGB => map (map swap_rb) src
  end.

Definition FONT_HERSHEY_TRIPLEX : Z := 4.
Definition CAP_PROP_FRAME_WIDTH : Z := 3.
Definition CAP_PROP_FRAME_HEIGHT : Z := 4.

(** One call of [cv2.putText]: the arguments after the image. *)
Record overlay := {
  ov_text : string;
  ov_org : Z * Z;
  ov_fontFace : Z;
  ov_fontScale : float;
  ov_color : Z * Z * Z;
  ov_thickness : Z
}.

(** The array the script draws on: the pixels it started from and the texts
    drawn on it so far, oldest first.  The rasterisation of the glyphs is
    not modelled. *)
Record canvas := { cv_pixels : frame; cv_texts : list overlay }.

Definition blank (f : frame) : canvas := {| cv_pixels := f; cv_texts := [] |}.

Definition draw (img : canvas) (o : overlay) : canvas :=
  {| cv_pixels := cv_pixels img; cv_texts := (cv_texts img ++ [o])%list |}.

End Cv2.

(** ** tflite_support.task: options and results *)
Module Task.

Record BaseOptions := {
  file_name : string; use_coral : bool; num_threads : Z }.
Record ClassificationOptions := {
  max_results : Z; score_threshold : float }.
Record ImageClassifierOptions := {
  base_options : BaseOptions;
  classification_options : ClassificationOptions }.

Record TensorImage := { buffer : Cv2.frame }.
Definition create_from_array (a : Cv2.frame) : TensorImage := {| buffer := a |}.

Record Category := {
  index : Z; score : float; display_name : string; category_name : string }.
Record Classifications := {
  categories : list Category; head_index : Z; head_name : string }.
Record ClassificationResult := { classifications : list Classifications }.

End Task.

(* ================================================================== *)
(** * The world and the effects *)
(* ================================================================== *)

Module Effects.
Import Cv2 Task.

Inductive exn :=
| SystemExit (arg : string)          (* [sys.exit(arg)] with a message *)
| UnboundLocalError (name : string)
| ZeroDivisionError
| ValueError (msg : string)
| OverflowError (msg : string)
| IndexError (msg : string)
| RuntimeError (msg : string).

Inductive result (A : Type) :=
| Ok (a : A)
| Raise (e : exn).
Arguments Ok {A} a.
Arguments Raise {A} e.

(** Every call that leaves the script, with what it returned. *)
Inductive event :=
| EvCreateClassifier (o : ImageClassifierOptions)
| EvVideoCapture (camera_id : Z)
| EvCapSet (prop value : Z)
| EvIsOpened (b : bool)
| EvRead (r : option frame)
| EvTime (t : float)
| EvClassify (img : TensorImage) (r : ClassificationResult)
| EvPutText (o : overlay)
| EvPrint (line : string)
| EvWaitKey (delay key : Z)
| EvImshow (winname : string) (img : canvas)
| EvRelease
| EvDestroyAllWindows.

(** An oracle is the sequence of the answers still to come. *)
Definition oracle (A : Type) := nat -> A.
Definition next {A} (o : oracle A) : A := o O.
Definition rest {A} (o : oracle A) : oracle A := fun n => o (S n).

Record World := {
  w_model : option string;            (* the error of loading the model, if any *)
  w_clock : oracle float;             (* [time.time()] *)
  w_opened : oracle bool;             (* [cap.isOpened()] *)
  w_camera : oracle (option frame);   (* [cap.read()]: [None] when it fails *)
  w_classify : oracle (TensorImage -> ClassificationResult);
  w_keys : oracle Z;                  (* [cv2.waitKey] *)
  w_trace : list event                (* oldest first *)
}.

Definition emit (e : event) (w : World) : World :=
  {| w_model := w_model w; w_clock := w_clock w; w_opened := w_opened w;
     w_camera := w_camera w; w_classify := w_classify w; w_keys := w_keys w;
     w_trace := (w_trace w ++ [e])%list |}.

(** State and exceptions. *)
Definition M (A : Type) := World -> result A * World.

Definition ret {A} (a : A) : M A := fun w => (Ok a, w).
Definition raise {A} (e : exn) : M A := fun w => (Raise e, w).
Definition bind {A B} (c : M A) (k : A -> M B) : M B :=
  fun w => match c w with
           | (Ok a, w') => k a w'
           | (Raise e, w') => (Raise e, w')
           end.
Definition lift {A} (r : result A) : M A := fun w => (r, w).

Declare Scope py_scope.
Delimit Scope py_scope with py.
Notation "x <- c ;; k" := (bind c (fun x => k))
  (at level 100, c at next level, right associativity) : py_scope.
Notation "' pat <- c ;; k" := (bind c (fun x => match x with pat => k end))
  (at level 100, pat pattern, c at next level, right associativity) : py_scope.
Notation "c ;; k" := (bind c (fun _ => k))
  (at level 100, right associativity) : py_scope.
Local Open Scope py_scope.

(** A [for] loop whose body updates the variables [s]. *)
Fixpoint for_each {A S} (body : S -> A -> M S) (l : list A) (s : S) : M S :=
  match l with
  | [] => ret s
  | a :: l' => s' <- body s a ;; for_each body l' s'
  end.

(** *** The calls *)

Definition time_time : M float := fun w =>
  let t := next (w_clock w) in
  (Ok t,
   emit (EvTime t)
     {| w_model := w_model w; w_clock := rest (w_clock w);
        w_opened := w_opened w; w_camera := w_camera w;
        w_classify := w_classify w; w_keys := w_keys w;
        w_trace := w_trace w |}).

Definition cap_isOpened : M bool := fun w =>
  let b := next (w_opened w) in
  (Ok b,
   emit (EvIsOpened b)
     {| w_model := w_model w; w_clock := w_clock w;
        w_opened := rest (w_opened w); w_camera := w_camera w;
        w_classify := w_classify w; w_keys := w_keys w;
        w_trace := w_trace w |}).

Definition cap_read : M (option frame) := fun w =>
  let r := next (w_camera w) in
  (Ok r,
   emit (EvRead r)
     {| w_model := w_model w; w_clock := w_clock w;
        w_opened := w_opened w; w_camera := rest (w_camera w);
        w_classify := w_classify w; w_keys := w_keys w;
        w_trace := w_trace w |}).

Definition classifier_classify (img : TensorImage) : M ClassificationResult :=
  fun w =>
  let r := next (w_classify w) img in
  (Ok r,
   emit (EvClassify img r)
     {| w_model := w_model w; w_clock := w_clock w;
        w_opened := w_opened w; w_camera := w_camera w;
        w_classify := rest (w_classify w); w_keys := w_keys w;
        w_trace := w_trace w |}).

Definition waitKey (delay : Z) : M Z := fun w =>
  let k := next (w_keys w) in
  (Ok k,
   emit (EvWaitKey delay k)
     {| w_model := w_model w; w_clock := w_clock w;
        w_opened := w_opened w; w_camera := w_camera w;
        w_classify := w_classify w; w_keys := rest (w_keys w);
        w_trace := w_trace w |}).

Definition tell (e : event) : M unit := fun w => (Ok tt, emit e w).

(** [cv2.putText] draws on [img] in place; the canvas returned is [img]
    after the call. *)
Definition putText (img : canvas) (text : string) (org : Z * Z) (fontFace : Z)
    (fontScale : float) (color : Z * Z * Z) (thickness : Z) : M canvas :=
  fun w =>
  let o := {| ov_text := text; ov_org := org; ov_fontFace := fontFace;
              ov_fontScale := fontScale; ov_color := color;
              ov_thickness := thickness |} in
  (Ok (draw img o), emit (EvPutText o) w).

Definition imshow (winname : string) (img : canvas) : M unit :=
  tell (EvImshow winname img).
Definition cap_release : M unit := tell EvRelease.
Definition destroyAllWindows : M unit := tell EvDestroyAllWindows.
Definition VideoCapture (camera_id : Z) : M unit := tell (EvVideoCapture camera_id).
Definition cap_set (prop value : Z) : M unit := tell (EvCapSet prop value).

(** [ImageClassifier.create_from_options]: fails when the model cannot be
    loaded. *)
Definition create_from_options (o : ImageClassifierOptions) : M unit :=
  fun w =>
  match w_model w with
  | Some msg => (Raise (RuntimeError msg), w)
  | None => (Ok tt, emit (EvCreateClassifier o) w)
  end.

(** [print] with several arguments: the arguments joined by one space, then a newline. *)
Definition newline : string := String "010"%char EmptyString.
Definition print (args : list string) : M unit :=
  tell (EvPrint (String.concat " " args ++ newline)).

Definition sys_exit {A} (arg : string) : M A := raise (SystemExit arg).

(** [l[0]] *)
Definition first {A} (l : list A) : M A :=
  match l with
  | a :: _ => ret a
  | [] => raise (IndexError "list index out of range")
  end.

(** Reading a local variable that may not have been assigned. *)
Definition local {A} (name : string) (v : option A) : M A :=
  match v with
  | Some a => ret a
  | None => raise (UnboundLocalError name)
  end.

End Effects.

(** ** Numbers that are an [int] or a [float] at run time *)
Module PyNum.
Import Py Effects.

Inductive num :=
| Int (z : Z)
| Float (f : float).

(** [float(z)]: the nearest float, or [OverflowError]. *)
Definition float_of_int (z : Z) : result float :=
  let f := nearest_float (z <? 0) (Z.abs z) 1 in
  if is_infinity f then Raise (OverflowError "int too large to convert to float")
  else Ok f.

(** [a > 0] *)
Definition gt0 (a : num) : bool :=
  match a with
  | Int z => 0 <? z
  | Float f => (0 <? f)%float
  end.

(** [a / b] on floats. *)
Definition float_div (a b : float) : result float :=
  if (b =? 0)%float then Raise ZeroDivisionError else Ok (a / b)%float.

(** [a / b]: true division. *)
Definition truediv (a b : num) : result num :=
  match a, b with
  | Int x, Int y =>
      if y =? 0 then Raise ZeroDivisionError else
      let f := nearest_float (negb (Bool.eqb (x <? 0) (y <? 0))) (Z.abs x) (Z.abs y) in
      if is_infinity f
      then Raise (OverflowError "integer division result too large for a float")
      else Ok (Float f)
  | Int x, Float y =>
      match float_of_int x with
      | Ok fx => match float_div fx y with Ok q => Ok (Float q) | Raise e => Raise e end
      | Raise e => Raise e
      end
  | Float x, Int y =>
      match float_of_int y with
      | Ok fy => match float_div x fy with Ok q => Ok (Float q) | Raise e => Raise e end
      | Raise e => Raise e
      end
  | Float x, Float y =>
      match float_div x y with Ok q => Ok (Float q) | Raise e => Raise e end
  end.

(** [a * b] *)
Definition mul (a b : num) : result num :=
  match a, b with
  | Int x, Int y => Ok (Int (x * y))
  | Int x, Float y =>
      match float_of_int x with
      | Ok fx => Ok (Float (fx * y)%float)
      | Raise e => Raise e
      end
  | Float x, Int y =>
      match float_of_int y with
      | Ok fy => Ok (Float (x * fy)%float)
      | Raise e => Raise e
      end
  | Float x, Float y => Ok (Float (x * y)%float)
  end.

(** [round(a, ndigits)] for [0 <= ndigits]: an [int] is returned as it is. *)
Definition round (a : num) (ndigits : Z) : num :=
  match a with
  | Int z => Int z
  | Float f => Float (round_float f ndigits)
  end.

(** [str(a)] *)
Definition str (a : num) : string :=
  match a with
  | Int z => str_int z
  | Float f => str_float f
  end.

(** [int(a)]: a float is truncated towards zero. *)
Definition int (a : num) : result Z :=
  match a with
  | Int z => Ok z
  | Float f =>
      match Prim2SF f with
      | S754_nan => Raise (ValueError "cannot convert float NaN to integer")
      | S754_infinity _ =>
          Raise (OverflowError "cannot convert float infinity to integer")
      | S754_zero _ => Ok 0
      | S754_finite s m e =>
          let q := exact_num m e / exact_den e in
          Ok (if s then - q else q)
      end
  end.

End PyNum.

(* ================================================================== *)
(** * classify.py *)
(* ================================================================== *)

Module Classify.
Import Py Effects PyNum.
Local Open Scope py_scope.

(** Visualization parameters *)
Definition _ROW_SIZE : Z := 30.
Definition _LEFT_MARGIN : Z := 25.
Definition _TEXT_COLOR : Z * Z * Z := (255, 255, 255).
Definition _FONT_SIZE : float := 0.6%float.
Definition _FONT_THICKNESS : Z := 1.
Definition _FPS_AVERAGE_FRAME_COUNT : Z := 10.

(** Lines 33-37. *)
Definition time_elapsed (start_times : float) (event : string) : M unit :=
  time_now <- time_time ;;
  let duration := ((time_now - start_times) * 1000)%float in
  let duration := round_float duration 2 in
  print [">> "; str_float duration; " ms ("; event; ")"].

(** The variables of [run] that live across iterations of its loops. *)
Record Locals := {
  counter : Z;
  fps : num;
  start_time : float;
  category_name : option string     (* [None] until first assigned *)
}.

Definition set_counter (c : Z) (st : Locals) : Locals :=
  {| counter := c; fps := fps st; start_time := start_time st;
     category_name := category_name st |}.
Definition set_fps (f : num) (t : float) (st : Locals) : Locals :=
  {| counter := counter st; fps := f; start_time := t;
     category_name := category_name st |}.
Definition set_category_name (n : option string) (st : Locals) : Locals :=
  {| counter := counter st; fps := fps st; start_time := start_time st;
     category_name := n |}.

(** Lines 107-113: the [if / elif / elif] on the index, with no [else]. *)
Definition label_lookup (index : Z) (name : option string) : option string :=
  if index =? 0 then Some "hp"
  else if index =? 1 then Some "mouse"
  else if index =? 2 then Some "diki"
  else name.

(** Lines 115-117. *)
Definition score_persentase (raw : float) : float :=
  let score := round_float raw 2 in
  (score * 100)%float.

Definition result_text (name : string) (raw : float) : string :=
  " Classification Result >> " ++ name ++ " " ++
  str_float (score_persentase raw) ++ "%".

(** Lines 104-124: the body of the [for] loop over the categories. *)
Definition show_category (start_t1 : float)
    (s : Locals * Cv2.canvas) (category : Task.Category)
    : M (Locals * Cv2.canvas) :=
  let (st, image) := s in
  let index := Task.index category in
  let st := set_category_name (label_lookup index (category_name st)) st in
  name <- local "category_name" (category_name st) ;;
  let text := result_text name (Task.score category) in
  let text_location := (50, 450) in
  image <- putText image text text_location Cv2.FONT_HERSHEY_TRIPLEX
             _FONT_SIZE _TEXT_COLOR _FONT_THICKNESS ;;
  time_elapsed start_t1 "Inference" ;;
  print [text] ;;
  ret (st, image).

(** Lines 126-130. *)
Definition calc_fps (st : Locals) : M Locals :=
  if counter st mod _FPS_AVERAGE_FRAME_COUNT =? 0 then
    end_time <- time_time ;;
    f <- lift (float_div 10 (end_time - start_time st)) ;;
    t <- time_time ;;
    ret (set_fps (Float f) t st)
  else ret st.

(** Lines 132-138. *)
Definition fps_ms_raw (fps : num) : result num :=
  if gt0 fps then
    match truediv (Int 1) fps with
    | Ok q => mul q (Int 1000)
    | Raise e => Raise e
    end
  else Ok (Int 0).

Definition fps_text (fps : num) : result string :=
  match fps_ms_raw fps with
  | Raise e => Raise e
  | Ok raw =>
      let fps_ms := round raw 2 in
      match int fps with
      | Raise e => Raise e
      | Ok n => Ok (str_int n ++ " fps / " ++ str fps_ms ++ " ms")
      end
  end.

Inductive flow :=
| Continue (st : Locals)
| Break (st : Locals).

(** Lines 132-141: the FPS text is drawn on the frame. *)
Definition show_fps (st : Locals) (image : Cv2.canvas) : M Cv2.canvas :=
  text <- lift (fps_text (fps st)) ;;
  let text_location := (_LEFT_MARGIN, _ROW_SIZE) in
  putText image text text_location Cv2.FONT_HERSHEY_TRIPLEX 0.5 _TEXT_COLOR 1.

(** Lines 147-150: the key is polled, then the frame is shown. *)
Definition stop_or_show (st : Locals) (image : Cv2.canvas) : M flow :=
  key <- waitKey 1 ;;
  if key =? 27 then ret (Break st)
  else imshow "image_classification" image ;; ret (Continue st).

Definition read_error : string :=
  "ERROR: Unable to read from webcam. Please verify your webcam settings.".

(** Lines 80-150: the body of the [while] loop. *)
Definition loop_body (st : Locals) : M flow :=
  r <- cap_read ;;
  match r with
  | None => sys_exit read_error
  | Some image =>
      let st := set_counter (counter st + 1) st in
      let image := Cv2.flip image 1 in
      start_times <- time_time ;;
      let rgb_image := Cv2.cvtColor image Cv2.COLOR_BGR2RGB in
      let tensor_image := Task.create_from_array rgb_image in
      start_t1 <- time_time ;;
      categories <- classifier_classify tensor_image ;;
      group <- first (Task.classifications categories) ;;
      s <- for_each (show_category start_t1) (Task.categories group)
             (st, Cv2.blank image) ;;
      let (st, image) := s : Locals * Cv2.canvas in
      st <- calc_fps st ;;
      image <- show_fps st image ;;
      stop_or_show st image
  end.

(** Where the [while] loop stands: still at the top of the loop with its
    locals (the fuel ran out), or left, by falling out of it or by an
    exception. *)
Inductive loop_state :=
| Running (st : Locals)
| Exited (r : result Locals).

(** Lines 79-150: [while cap.isOpened(): ...].  [seen] collects the locals
    at the end of every iteration that ran to its last line. *)
Fixpoint capture_loop (fuel : nat) (st : Locals) (seen : list Locals) (w : World)
    : loop_state * list Locals * World :=
  match fuel with
  | O => (Running st, seen, w)
  | S fuel' =>
      match cap_isOpened w with
      | (Raise e, w1) => (Exited (Raise e), seen, w1)
      | (Ok false, w1) => (Exited (Ok st), seen, w1)
      | (Ok true, w1) =>
          match loop_body st w1 with
          | (Raise e, w2) => (Exited (Raise e), seen, w2)
          | (Ok (Break st'), w2) => (Exited (Ok st'), (seen ++ [st'])%list, w2)
          | (Ok (Continue st'), w2) =>
              capture_loop fuel' st' (seen ++ [st'])%list w2
          end
      end
  end.

(** Lines 54-76: what [run] does before its loop. *)
Definition setup (model : string) (max_results : Z) (score_threshold : float)
    (num_threads : Z) (enable_edgetpu : bool) (camera_id width height : Z)
    : M Locals :=
  let base_options :=
    {| Task.file_name := model; Task.use_coral := enable_edgetpu;
       Task.num_threads := num_threads |} in
  let classification_options :=
    {| Task.max_results := max_results;
       Task.score_threshold := score_threshold |} in
  let options :=
    {| Task.base_options := base_options;
       Task.classification_options := classification_options |} in
  create_from_options options ;;
  t <- time_time ;;
  VideoCapture camera_id ;;
  cap_set Cv2.CAP_PROP_FRAME_WIDTH width ;;
  cap_set Cv2.CAP_PROP_FRAME_HEIGHT height ;;
  ret {| counter := 0; fps := Int 0; start_time := t; category_name := None |}.

(** Lines 152-153, after the loop. *)
Definition cleanup : M unit :=
  cap_release ;; destroyAllWindows.

(** [run]: the result is [None] while the loop is still running when the
    fuel is out. *)
Definition run (fuel : nat) (model : string) (max_results : Z)
    (score_threshold : float) (num_threads : Z) (enable_edgetpu : bool)
    (camera_id width height : Z) (w : World)
    : option (result unit) * list Locals * World :=
  match setup model max_results score_threshold num_threads enable_edgetpu
          camera_id width height w with
  | (Raise e, w0) => (Some (Raise e), [], w0)
  | (Ok st0, w0) =>
      match capture_loop fuel st0 [] w0 with
      | (Running _, seen, w1) => (None, seen, w1)
      | (Exited (Raise e), seen, w1) => (Some (Raise e), seen, w1)
      | (Exited (Ok _), seen, w1) =>
          let (r, w2) := cleanup w1 in (Some r, seen, w2)
      end
  end.

(** The parsed command line, with the defaults of [main]. *)
Record Args := {
  model : string; maxResults : Z; scoreThreshold : float; numThreads : Z;
  enableEdgeTPU : bool; cameraId : Z; frameWidth : Z; frameHeight : Z }.

Definition default_args : Args :=
  {| model := "model/tes.tflite"; maxResults := 1; scoreThreshold := 0;
     numThreads := 4; enableEdgeTPU := false; cameraId := 0;
     frameWidth := 640; frameHeight := 480 |}.

Definition main (fuel : nat) (args : Args) (w : World)
    : option (result unit) * list Locals * World :=
  run fuel (model args) (maxResults args) (scoreThreshold args)
    (numThreads args) (enableEdgeTPU args) (cameraId args)
    (frameWidth args) (frameHeight args) w.

(** How the interpreter ends the process: status 0 when [main] returns;
    [sys.exit] with a string writes it to standard error and ends with
    status 1, as does an exception nobody caught (after its traceback). *)
Definition exit_code (r : result unit) : Z :=
  match r with
  | Ok _ => 0
  | Raise _ => 1
  end.

Definition stderr_message (r : result unit) : option string :=
  match r with
  | Raise (SystemExit arg) => Some (arg ++ newline)
  | _ => None
  end.

End Classify.

(* ================================================================== *)
(** * What one iteration leaves in the trace *)
(* ================================================================== *)

Module Shape.
Import Py Cv2 Effects PyNum Classify.

(** The events of the [for] loop over the categories. *)
Definition cat_event (e : event) : Prop :=
  match e with
  | EvPutText _ | EvTime _ | EvPrint _ => True
  | _ => False
  end.

(** The events of the loop, as opposed to those of the set-up and of the
    clean-up. *)
Definition loop_event (e : event) : Prop :=
  match e with
  | EvIsOpened _ | EvRead _ | EvTime _ | EvClassify _ _ | EvPutText _
  | EvPrint _ | EvWaitKey _ _ | EvImshow _ _ => True
  | _ => False
  end.

(** The exceptions of the FPS lines. *)
Definition fps_error (x : exn) : Prop :=
  x = ZeroDivisionError \/ (exists m, x = ValueError m) \/
  (exists m, x = OverflowError m).

(** Neither the poll of the keyboard nor the display. *)
Definition before_poll (e : event) : Prop :=
  match e with
  | EvWaitKey _ _ | EvImshow _ _ => False
  | _ => True
  end.

(** Neither [cap.release()] nor [cv2.destroyAllWindows()]. *)
Definition running_event (e : event) : Prop :=
  match e with
  | EvRelease | EvDestroyAllWindows => False
  | _ => True
  end.

(** The events of an iteration after the classifier was called. *)
Definition tail_event (e : event) : Prop :=
  match e with
  | EvTime _ | EvPutText _ | EvPrint _ | EvWaitKey _ _ | EvImshow _ _ => True
  | _ => False
  end.

Definition fps_overlay (text : string) : overlay :=
  {| ov_text := text; ov_org := (25, 30); ov_fontFace := 4;
     ov_fontScale := 0.5; ov_color := (255, 255, 255); ov_thickness := 1 |}.

Definition result_overlay (text : string) : overlay :=
  {| ov_text := text; ov_org := (50, 450); ov_fontFace := 4;
     ov_fontScale := 0.6; ov_color := (255, 255, 255); ov_thickness := 1 |}.

(** Lines 132-150 with the locals [st] and the canvas [image]. *)
Definition overlay_tail (st : Locals) (image : canvas) (key : Z)
    (r : result flow) (evs : list event) : Prop :=
  match fps_text (fps st) with
  | Raise e => r = Raise e /\ evs = []
  | Ok text =>
      let o := fps_overlay text in
      evs = (EvPutText o :: EvWaitKey 1 key ::
               (if key =? 27 then []
                else [EvImshow "image_classification" (draw image o)]))%list /\
      r = Ok (if key =? 27 then Break st else Continue st)
  end.

(** Lines 126-150. *)
Definition fps_tail (st : Locals) (image : canvas) (key : Z)
    (r : result flow) (evs : list event) : Prop :=
  if counter st mod 10 =? 0 then
    exists end_time,
      match float_div 10 (end_time - start_time st) with
      | Raise e => r = Raise e /\ evs = [EvTime end_time]
      | Ok f =>
          exists t evs',
            evs = (EvTime end_time :: EvTime t :: evs')%list /\
            overlay_tail (set_fps (Float f) t st) image key r evs'
      end
  else overlay_tail st image key r evs.

(** Lines 104-150, after the classifier returned [groups]. *)
Definition body_tail (st : Locals) (flipped : frame)
    (groups : list Task.Classifications) (key : Z)
    (r : result flow) (evs : list event) : Prop :=
  match groups with
  | [] => r = Raise (IndexError "list index out of range") /\ evs = []
  | group :: _ =>
      exists cevs, Forall cat_event cevs /\
        ((r = Raise (UnboundLocalError "category_name") /\ evs = cevs /\
          Task.categories group <> []) \/
         exists st2 image evs',
           evs = (cevs ++ evs')%list /\
           counter st2 = counter st + 1 /\ fps st2 = fps st /\
           start_time st2 = start_time st /\ cv_pixels image = flipped /\
           (Task.categories group = [] ->
              cevs = [] /\ cv_texts image = [] /\
              category_name st2 = category_name st) /\
           fps_tail st2 image key r evs')
  end.

(** Two iterations that follow each other: the counter goes up by one; the
    FPS and the start of its window change together, when the counter is a
    multiple of 10, from two readings of the clock that follow each other in
    the trace [tr]. *)
Definition fps_step (tr : list event) (prev cur : Locals) : Prop :=
  counter cur = counter prev + 1 /\
  if counter cur mod 10 =? 0 then
    exists end_time pre post,
      fps cur = Float (10 / (end_time - start_time prev)) /\
      tr = (pre ++ EvTime end_time :: EvTime (start_time cur) :: post)%list
  else fps cur = fps prev /\ start_time cur = start_time prev.

(** The locals an iteration ends with. *)
Definition locals_of (fl : flow) : Locals :=
  match fl with
  | Continue st | Break st => st
  end.

(** The run is at the top of its loop for the [k+1]-th time, with these
    locals, these frames processed and this world. *)
Definition entering (k : nat) (a : Args) (w : World)
    : option (Locals * list Locals * World) :=
  match setup (model a) (maxResults a) (scoreThreshold a) (numThreads a)
          (enableEdgeTPU a) (cameraId a) (frameWidth a) (frameHeight a) w with
  | (Ok st0, w0) =>
      match capture_loop k st0 [] w0 with
      | (Running st, seen, wk) => Some (st, seen, wk)
      | _ => None
      end
  | _ => None
  end.

Fixpoint fps_chain (tr : list event) (prev : Locals) (l : list Locals) : Prop :=
  match l with
  | [] => True
  | cur :: l' => fps_step tr prev cur /\ fps_chain tr cur l'
  end.

End Shape.

(* ================================================================== *)
(** * A camera, a clock and a model to run the script on *)
(* ================================================================== *)

Module Sample.
Import Py Cv2 Effects PyNum Classify.

Definition px (a b c : byte) : pixel := {| ch0 := a; ch1 := b; ch2 := c |}.

(** A frame of two rows of two pixels. *)
Definition shot : frame :=
  [[px x01 x02 x03; px x04 x05 x06]; [px x07 x08 x09; px x0a x0b x0c]].

Definition category (i : Z) (s : float) : Task.Category :=
  {| Task.index := i; Task.score := s; Task.display_name := "";
     Task.category_name := "" |}.

Definition answer (l : list Task.Category) : Task.ClassificationResult :=
  {| Task.classifications :=
       [{| Task.categories := l; Task.head_index := 0; Task.head_name := "" |}] |}.

(** The readings of the clock: a quarter of a second apart, from 100. *)
Definition ticks : list float :=
  Eval vm_compute in
    map (fun k => nearest_float false (400 + Z.of_nat k) 4) (seq 0 256).

(** The clock advances by a quarter of a second at every reading; the
    camera delivers [shot] until reading [fail_at]; the model answers
    [cats n] at its [n]-th call; the key 27 comes at poll [esc_at]. *)
Definition world (fail_at esc_at : nat) (cats : nat -> list Task.Category)
    : World :=
  {| w_model := None;
     w_clock := fun n => nth n ticks 164%float;
     w_opened := fun _ => true;
     w_camera := fun n => if Nat.eqb n fail_at then None else Some shot;
     w_classify := fun n _ => answer (cats n);
     w_keys := fun n => if Nat.eqb n esc_at then 27 else -1;
     w_trace := [] |}.

Definition never : nat := 100.

Definition blank_locals : Locals :=
  {| counter := 0; fps := Int 0; start_time := 100; category_name := None |}.

(** The texts on the canvas that the [for] loop body returns. *)
Definition drawn_texts (r : result (Locals * canvas) * World) : list string :=
  match fst r with
  | Ok (_, image) => map ov_text (cv_texts image)
  | Raise _ => []
  end.

(** The result texts drawn at (50, 450), in the order of the trace. *)
Fixpoint result_texts (tr : list event) : list string :=
  match tr with
  | [] => []
  | EvPutText o :: tr' =>
      if (fst (ov_org o) =? 50) && (snd (ov_org o) =? 450)
      then ov_text o :: result_texts tr' else result_texts tr'
  | _ :: tr' => result_texts tr'
  end.

(** The scenario of 30 frames: category 0 with score 0.90 on frames 1-10,
    category 1 with 0.75 on frames 11-20, category 2 with 0.60 on frames
    21-30; the key 27 is read on frame 30. *)
Definition thirty_frames : World :=
  world never 29
    (fun n => if Nat.ltb n 10 then [category 0 0.90]
              else if Nat.ltb n 20 then [category 1 0.75]
              else [category 2 0.60]).

Definition is_putText (e : event) : bool :=
  match e with EvPutText _ => true | _ => false end.
Definition is_imshow (e : event) : bool :=
  match e with EvImshow _ _ => true | _ => false end.
Definition is_cleanup (e : event) : bool :=
  match e with EvRelease | EvDestroyAllWindows => true | _ => false end.

(** The camera cannot be opened. *)
Definition closed_camera : World :=
  {| w_model := None;
     w_clock := fun n => nth n ticks 164%float;
     w_opened := fun _ => false;
     w_camera := fun _ => None;
     w_classify := fun _ _ => answer [];
     w_keys := fun _ => -1;
     w_trace := [] |}.

(** The model file cannot be loaded. *)
Definition no_model : World :=
  {| w_model := Some "Unable to open file at model/tes.tflite";
     w_clock := fun n => nth n ticks 164%float;
     w_opened := fun _ => true;
     w_camera := fun _ => Some shot;
     w_classify := fun _ _ => answer [];
     w_keys := fun _ => -1;
     w_trace := [] |}.

(** The model answers without a classification group. *)
Definition no_group : World :=
  {| w_model := None;
     w_clock := fun n => nth n ticks 164%float;
     w_opened := fun _ => true;
     w_camera := fun _ => Some shot;
     w_classify := fun _ _ => {| Task.classifications := [] |};
     w_keys := fun _ => -1;
     w_trace := [] |}.

(** The clock stands still at 100; the model finds category 0. *)
Definition stalled_clock : World :=
  {| w_model := None;
     w_clock := fun _ => 100%float;
     w_opened := fun _ => true;
     w_camera := fun _ => Some shot;
     w_classify := fun _ _ => answer [category 0 0.9];
     w_keys := fun _ => -1;
     w_trace := [] |}.

(** The locals when the tenth frame is about to be read. *)
Definition ninth_frame : Locals :=
  {| counter := 9; fps := Int 0; start_time := 100; category_name := Some "hp" |}.

(** The model finds two categories in every frame. *)
Definition two_results : World :=
  world never never (fun _ => [category 0 0.9; category 2 0.05]).

(** The first index the model ever reports is not 0, 1 or 2. *)
Definition unknown_first : World :=
  world never never (fun _ => [category 7 0.9]).

End Sample.

(* ================================================================== *)
(** * Counting the events of a trace *)
(* ================================================================== *)

Module Tally.
Import Py Cv2 Effects PyNum Classify.

Definition is_read_ok (e : event) : bool :=
  match e with EvRead (Some _) => true | _ => false end.
Definition is_classify (e : event) : bool :=
  match e with EvClassify _ _ => true | _ => false end.
Definition is_waitKey (e : event) : bool :=
  match e with EvWaitKey _ _ => true | _ => false end.
(** A poll of the keyboard that read the key 27. *)
Definition is_esc (e : event) : bool :=
  match e with EvWaitKey _ key => key =? 27 | _ => false end.
Definition is_display (e : event) : bool :=
  match e with EvImshow _ _ => true | _ => false end.
Definition is_text (e : event) : bool :=
  match e with EvPutText _ => true | _ => false end.
(** A text drawn at (50, 450), where the results go. *)
Definition is_result_text (e : event) : bool :=
  match e with
  | EvPutText o => (fst (ov_org o) =? 50) && (snd (ov_org o) =? 450)
  | _ => false
  end.
Definition is_time (e : event) : bool :=
  match e with EvTime _ => true | _ => false end.
Definition is_print (e : event) : bool :=
  match e with EvPrint _ => true | _ => false end.

Definition count (p : event -> bool) (tr : list event) : nat :=
  List.length (filter p tr).

(** An index that the label lookup knows. *)
Definition known_index (c : Task.Category) : Prop :=
  Task.index c = 0 \/ Task.index c = 1 \/ Task.index c = 2.

(** The exceptions of one iteration that are not [sys.exit]. *)
Definition body_error (x : exn) : Prop :=
  x = IndexError "list index out of range" \/
  x = UnboundLocalError "category_name" \/
  x = ZeroDivisionError \/ (exists m, x = ValueError m) \/
  (exists m, x = OverflowError m).

(** What was printed, line by line, and what the clock was read as, in the
    order of the trace. *)
Definition printed (tr : list event) : list string :=
  flat_map (fun e => match e with EvPrint s => [s] | _ => [] end) tr.
Definition readings (tr : list event) : list float :=
  flat_map (fun e => match e with EvTime t => [t] | _ => [] end) tr.

End Tally.

(* ================================================================== *)
(** * Properties *)
(* ================================================================== *)

Import Py Cv2 Effects PyNum Classify Shape Tally.
Local Open Scope py_scope.

(** ** Floats *)

Lemma sf_zero : Prim2SF 0 = S754_zero false.
Proof. vm_compute. reflexivity. Qed.

Lemma sf_one : Prim2SF 1 = S754_finite false 4503599627370496 (-52).
Proof. vm_compute. reflexivity. Qed.

(** [str] and [round] on the values the interpreter is known for. *)
Example str_float_examples :
  map str_float
    [0.9; 90; 0.57 * 100; 0.1 + 0.2; 1.1 * 3; 0.29 * 100; 1 / 3; 1e16; 1e15;
     0.0001; 0.00001; 5e-324; 1e23; 123456789.125; -2.5; neg_zero; infinity;
     nan]%float =
    ["0.9"; "90.0"; "56.99999999999999"; "0.30000000000000004";
     "3.3000000000000003"; "28.999999999999996"; "0.3333333333333333";
     "1e+16"; "1000000000000000.0"; "0.0001"; "1e-05"; "5e-324"; "1e+23";
     "123456789.125"; "-2.5"; "-0.0"; "inf"; "nan"].
Proof. vm_compute. reflexivity. Qed.

Example round_float_examples :
  map (fun x => str_float (round_float x 2))
    [2.675; 0.125; 0.375; 0.575; 1.005; 33.3666666667; -0.001; 1e300]%float =
    ["2.67"; "0.12"; "0.38"; "0.57"; "1.0"; "33.37"; "-0.0"; "1e+300"].
Proof. vm_compute. reflexivity. Qed.

Lemma digits2_pos_bound (m : positive) : Zpos m < 2 ^ Zpos (digits2_pos m).
Proof.
  induction m as [m IH | m IH | ]; cbn [digits2_pos].
  - rewrite Pos2Z.inj_succ, Z.pow_succ_r by lia. lia.
  - rewrite Pos2Z.inj_succ, Z.pow_succ_r by lia. lia.
  - reflexivity.
Qed.

(** A valid binary64 mantissa has at most 53 bits. *)
Lemma valid_mantissa (s : bool) (m : positive) (e : Z) :
  valid_binary (S754_finite s m e) = true -> Zpos m < 2 ^ 53.
Proof.
  cbn [SpecFloat.valid_binary]. unfold bounded, canonical_mantissa, fexp.
  intros H. apply andb_prop in H as [H _]. apply Z.eqb_eq in H.
  pose proof (digits2_pos_bound m) as B.
  assert (D : Zpos (digits2_pos m) <= 53) by (unfold prec in H; lia).
  eapply Z.lt_le_trans; [exact B|].
  apply Z.pow_le_mono_r; lia.
Qed.

(** A float between 0 and 1 is a zero or a positive fraction [m / 2^(-e)]
    that is at most 1. *)
Lemma unit_interval (x : float) :
  (0 <=? x)%float = true -> (x <=? 1)%float = true ->
  match Prim2SF x with
  | S754_zero _ => True
  | S754_finite false m e => e < 0 /\ Zpos m <= 2 ^ (- e)
  | _ => False
  end.
Proof.
  rewrite !leb_spec, sf_zero, sf_one. intros H0 H1.
  pose proof (Prim2SF_valid x) as V.
  destruct (Prim2SF x) as [b | b | | s m e]; try exact I.
  - destruct b; discriminate.
  - discriminate.
  - destruct s; [discriminate|].
    apply valid_mantissa in V.
    unfold SFleb, SFcompare in H1.
    destruct (Z.compare_spec e (-52)) as [E | E | E]; try discriminate.
    + subst e. split; [lia|].
      rewrite Pos.compare_cont_spec in H1. cbn [Pos.switch_Eq] in H1.
      destruct (Pos.compare_spec m 4503599627370496) as [E | E | E];
        try discriminate.
      * subst m. vm_compute. discriminate.
      * change (2 ^ (- -52)) with (Zpos 4503599627370496).
        apply Z.lt_le_incl, Pos2Z.pos_lt_pos, E.
    + split; [lia|].
      assert (2 ^ 53 <= 2 ^ (- e)) by (apply Z.pow_le_mono_r; lia).
      apply Z.lt_le_incl. eapply Z.lt_le_trans; eassumption.
Qed.

Lemma round_half_even_unit (num den : Z) :
  0 < num -> num <= den ->
  0 <= round_half_even (num * 100) den <= 100.
Proof.
  intros Hn Hd. unfold round_half_even.
  assert (D : 0 < den) by lia.
  pose proof (Z.mod_pos_bound (num * 100) den D) as R.
  pose proof (Z.div_mod (num * 100) den ltac:(lia)) as E.
  set (q := num * 100 / den) in *. set (r := (num * 100) mod den) in *.
  assert (Q0 : 0 <= q) by nia.
  assert (Q1 : q <= 100) by nia.
  destruct (Z.eq_dec q 100) as [-> | Nq].
  - assert (r = 0) by nia. subst r.
    replace (2 * _ ?= den) with Lt; [lia|].
    symmetry. apply Z.compare_lt_iff. lia.
  - destruct (2 * r ?= den); [destruct (Z.even q)| |]; lia.
Qed.

(** The 101 floats [n / 100], times 100, stay between 0 and 100. *)
Lemma hundredths_in_range (n : Z) :
  0 <= n <= 100 ->
  let p := (nearest_float false n 100 * 100)%float in
  ((0 <=? p) && (p <=? 100))%float = true.
Proof.
  intros H.
  assert (A : forallb
                (fun k => let p := (nearest_float false (Z.of_nat k) 100 * 100)%float in
                          ((0 <=? p) && (p <=? 100))%float)
                (seq 0 101) = true) by (vm_compute; reflexivity).
  rewrite forallb_forall in A.
  specialize (A (Z.to_nat n)). rewrite Z2Nat.id in A by lia.
  apply A, in_seq. lia.
Qed.

Lemma positive_not_zero (f : float) :
  (0 <? f)%float = true -> (f =? 0)%float = false.
Proof.
  rewrite ltb_spec, eqb_spec, sf_zero. intros H.
  destruct (Prim2SF f) as [b | b | | s m e]; try discriminate H.
  - destruct b; [discriminate H | reflexivity].
  - destruct s; [discriminate H | reflexivity].
Qed.

(** C8: for a raw score [s] with [0 <= s <= 1], the percentage that is
    displayed is [round(s, 2) * 100], and it lies between 0 and 100. *)
Theorem score_percentage_range (name : string) (s : float) :
  (0 <=? s)%float = true -> (s <=? 1)%float = true ->
  score_persentase s = (round_float s 2 * 100)%float /\
  result_text name s =
    " Classification Result >> " ++ name ++ " " ++
    str_float (round_float s 2 * 100) ++ "%" /\
  (0 <=? score_persentase s)%float = true /\
  (score_persentase s <=? 100)%float = true.
Proof.
  intros H0 H1. split; [reflexivity|]. split; [reflexivity|].
  apply andb_prop.
  unfold score_persentase, round_float.
  pose proof (unit_interval s H0 H1) as U.
  pose proof (SF2Prim_Prim2SF s) as P.
  destruct (Prim2SF s) as [b | b | | sg m e]; try contradiction.
  - subst s. destruct b; vm_compute; reflexivity.
  - destruct sg; [contradiction|]. destruct U as [E M].
    change (10 ^ 2) with 100.
    apply hundredths_in_range.
    unfold exact_num, exact_den.
    destruct (Z.leb_spec 0 e); [lia|].
    apply round_half_even_unit; lia.
Qed.

Lemma score_percentage_range_witness :
  score_persentase 0.57 = 56.99999999999999%float /\
  (0 <=? score_persentase 0.57)%float = true /\
  (score_persentase 0.57 <=? 100)%float = true.
Proof.
  destruct (score_percentage_range "hp" 0.57) as (_ & _ & L & U);
    [reflexivity | reflexivity |].
  split; [vm_compute; reflexivity|]. split; assumption.
Defined.

(** ** The label and the result text *)

Lemma set_category_name_same (st : Locals) :
  set_category_name (category_name st) st = st.
Proof. destruct st; reflexivity. Qed.

(** What the body of the [for] loop does once the label is known. *)
Lemma show_category_named (t1 : float) (st : Locals) (image : canvas)
    (c : Task.Category) (w : World) (name : string) :
  label_lookup (Task.index c) (category_name st) = Some name ->
  let text := result_text name (Task.score c) in
  exists w' t line,
    show_category t1 (st, image) c w =
      (Ok (set_category_name (Some name) st, draw image (result_overlay text)), w') /\
    w_trace w' =
      (w_trace w ++ [EvPutText (result_overlay text); EvTime t; EvPrint line;
                     EvPrint (text ++ newline)])%list /\
    w_keys w' = w_keys w.
Proof.
  intros L text. unfold show_category. rewrite L.
  eexists _, _, _. split; [reflexivity|].
  cbn. rewrite <- !app_assoc. split; reflexivity.
Qed.

Lemma show_category_unbound (t1 : float) (st : Locals) (image : canvas)
    (c : Task.Category) (w : World) :
  label_lookup (Task.index c) (category_name st) = None ->
  show_category t1 (st, image) c w =
    (Raise (UnboundLocalError "category_name"), w).
Proof.
  intros L. unfold show_category. rewrite L. reflexivity.
Qed.

(** C3, amended: for a result with index 0, 1 or 2 the text drawn at
    (50, 450) is [" Classification Result >> {label} {score*100}%"], with a
    space in front, where the label is hp, mouse or diki and the score is
    rounded to 2 decimals before it is multiplied by 100. *)
Theorem result_text_drawn (t1 : float) (st : Locals) (image : canvas)
    (c : Task.Category) (w : World) (name : string) :
  (Task.index c = 0 /\ name = "hp") \/
  (Task.index c = 1 /\ name = "mouse") \/
  (Task.index c = 2 /\ name = "diki") ->
  let text := " Classification Result >> " ++ name ++ " " ++
              str_float (round_float (Task.score c) 2 * 100) ++ "%" in
  let o := {| ov_text := text; ov_org := (50, 450); ov_fontFace := 4;
              ov_fontScale := 0.6; ov_color := (255, 255, 255);
              ov_thickness := 1 |} in
  exists w' t line,
    show_category t1 (st, image) c w =
      (Ok (set_category_name (Some name) st, draw image o), w') /\
    w_trace w' =
      (w_trace w ++ [EvPutText o; EvTime t; EvPrint line;
                     EvPrint (text ++ newline)])%list.
Proof.
  intros H text o.
  destruct (show_category_named t1 st image c w name) as (w' & t & line & E & T & _).
  { unfold label_lookup.
    destruct H as [[-> ->] | [[-> ->] | [-> ->]]]; reflexivity. }
  exists w', t, line. split; assumption.
Qed.

Lemma result_text_drawn_witness :
  exists w' t line,
    show_category 100 (Sample.blank_locals, blank Sample.shot)
      (Sample.category 1 0.75) (Sample.world 0 0 (fun _ => [])) =
      (Ok (set_category_name (Some "mouse") Sample.blank_locals,
           draw (blank Sample.shot)
             (result_overlay " Classification Result >> mouse 75.0%")), w') /\
    w_trace w' =
      [EvPutText (result_overlay " Classification Result >> mouse 75.0%");
       EvTime t; EvPrint line;
       EvPrint (" Classification Result >> mouse 75.0%" ++ newline)].
Proof.
  exact (result_text_drawn 100 Sample.blank_locals (blank Sample.shot)
           (Sample.category 1 0.75) (Sample.world 0 0 (fun _ => [])) "mouse"
           (or_intror (or_introl (conj eq_refl eq_refl)))).
Defined.

(** C3 as stated fails: for index 0 and score 0.9 the text drawn starts
    with a space, so it is not ["Classification Result >> hp 90.0%"]. *)
Lemma result_text_leading_space :
  Sample.drawn_texts
    (show_category 100 (Sample.blank_locals, blank Sample.shot)
       (Sample.category 0 0.9) (Sample.world 0 0 (fun _ => []))) =
    [" Classification Result >> hp 90.0%"] /\
  Sample.drawn_texts
    (show_category 100 (Sample.blank_locals, blank Sample.shot)
       (Sample.category 0 0.9) (Sample.world 0 0 (fun _ => []))) <>
    ["Classification Result >> " ++ "hp" ++ " " ++
     str_float (round_float 0.9 2 * 100) ++ "%"].
Proof.
  split; [vm_compute; reflexivity|].
  vm_compute. discriminate.
Qed.

(** C2, amended: for an index outside 0, 1, 2 the lookup leaves the label
    as it was and raises nothing itself.  With a label left by an earlier
    result the text is formatted and drawn with that stale label; with no
    label assigned yet, reading the variable raises [UnboundLocalError]
    before anything is drawn or printed. *)
Theorem unknown_index_label (t1 : float) (st : Locals) (image : canvas)
    (c : Task.Category) (w : World) :
  Task.index c <> 0 -> Task.index c <> 1 -> Task.index c <> 2 ->
  label_lookup (Task.index c) (category_name st) = category_name st /\
  match category_name st with
  | Some stale =>
      let text := result_text stale (Task.score c) in
      exists w' t line,
        show_category t1 (st, image) c w =
          (Ok (st, draw image (result_overlay text)), w') /\
        w_trace w' =
          (w_trace w ++ [EvPutText (result_overlay text); EvTime t;
                         EvPrint line; EvPrint (text ++ newline)])%list
  | None =>
      show_category t1 (st, image) c w =
        (Raise (UnboundLocalError "category_name"), w)
  end.
Proof.
  intros H0 H1 H2.
  assert (L : label_lookup (Task.index c) (category_name st) = category_name st).
  { unfold label_lookup.
    destruct (Z.eqb_spec (Task.index c) 0); [contradiction|].
    destruct (Z.eqb_spec (Task.index c) 1); [contradiction|].
    destruct (Z.eqb_spec (Task.index c) 2); [contradiction|].
    reflexivity. }
  split; [exact L|].
  destruct (category_name st) as [stale|] eqn:N.
  - intros text.
    destruct (show_category_named t1 st image c w stale) as (w' & t & line & E & T & _).
    { rewrite N. exact L. }
    exists w', t, line. split; [|exact T].
    rewrite E. rewrite <- N, set_category_name_same. reflexivity.
  - apply show_category_unbound. rewrite N. exact L.
Qed.

Lemma unknown_index_label_witness :
  show_category 100 (Sample.blank_locals, blank Sample.shot)
    (Sample.category 7 0.9) (Sample.world 0 0 (fun _ => [])) =
    (Raise (UnboundLocalError "category_name"), Sample.world 0 0 (fun _ => [])).
Proof.
  exact (proj2 (unknown_index_label 100 Sample.blank_locals (blank Sample.shot)
                  (Sample.category 7 0.9) (Sample.world 0 0 (fun _ => []))
                  ltac:(discriminate) ltac:(discriminate) ltac:(discriminate))).
Defined.

(** C2 as stated fails: when the very first result has index 7, the run
    ends with [UnboundLocalError] and no text was drawn. *)
Lemma unknown_first_index_raises :
  let out := main 5 default_args
               (Sample.world Sample.never Sample.never
                  (fun _ => [Sample.category 7 0.9])) in
  fst (fst out) = Some (Raise (UnboundLocalError "category_name")) /\
  filter Sample.is_putText (w_trace (snd out)) = [].
Proof. vm_compute. split; reflexivity. Qed.

(** ** The FPS text *)

Lemma float_of_int_1 : float_of_int 1 = Ok 1%float.
Proof. vm_compute. reflexivity. Qed.

Lemma float_of_int_1000 : float_of_int 1000 = Ok 1000%float.
Proof. vm_compute. reflexivity. Qed.

(** The milliseconds per frame of a positive float FPS. *)
Lemma fps_ms_raw_positive (f : float) :
  (0 <? f)%float = true ->
  fps_ms_raw (Float f) = Ok (Float (1 / f * 1000)).
Proof.
  intros H. unfold fps_ms_raw, gt0. rewrite H.
  unfold truediv. rewrite float_of_int_1.
  unfold float_div. rewrite (positive_not_zero f H).
  unfold mul. rewrite float_of_int_1000. reflexivity.
Qed.

(** ** One iteration *)

Lemma bind_ok {A B} (c : M A) (k : A -> M B) (w w' : World) (a : A) :
  c w = (Ok a, w') -> bind c k w = k a w'.
Proof. intros E. unfold bind. rewrite E. reflexivity. Qed.

Lemma bind_raise {A B} (c : M A) (k : A -> M B) (w w' : World) (e : exn) :
  c w = (Raise e, w') -> bind c k w = (Raise e, w').
Proof. intros E. unfold bind. rewrite E. reflexivity. Qed.

Lemma cat_event_loop_event (e : event) : cat_event e -> loop_event e.
Proof. destruct e; cbn; tauto. Qed.

(** Lines 104-124: the [for] loop draws, reads the clock and prints; it
    leaves the counter, the FPS state and the pixels alone; the only
    exception it raises is that of the unassigned label. *)
Lemma show_results_spec (t1 : float) (cats : list Task.Category) :
  forall (st : Locals) (image : canvas) (w : World),
  exists evs,
    w_trace (snd (for_each (show_category t1) cats (st, image) w)) =
      (w_trace w ++ evs)%list /\
    Forall cat_event evs /\
    w_keys (snd (for_each (show_category t1) cats (st, image) w)) = w_keys w /\
    match fst (for_each (show_category t1) cats (st, image) w) with
    | Raise e => e = UnboundLocalError "category_name" /\ cats <> []
    | Ok (st', image') =>
        counter st' = counter st /\ fps st' = fps st /\
        start_time st' = start_time st /\
        cv_pixels image' = cv_pixels image /\
        (cats = [] -> evs = [] /\ image' = image /\ st' = st)
    end.
Proof.
  induction cats as [|c cats IH]; intros st image w.
  - exists []. cbn. rewrite app_nil_r. repeat split; auto.
  - cbn [for_each].
    destruct (label_lookup (Task.index c) (category_name st)) as [name|] eqn:L.
    + destruct (show_category_named t1 st image c w name L)
        as (w' & t & line & E & T & K).
      rewrite (bind_ok _ _ _ _ _ E).
      destruct (IH (set_category_name (Some name) st)
                  (draw image (result_overlay (result_text name (Task.score c)))) w')
        as (evs & Tr & Fa & K' & R).
      eexists. split; [rewrite Tr, T, <- app_assoc; reflexivity|].
      split.
      { repeat (constructor; [exact I|]). exact Fa. }
      split; [rewrite K', K; reflexivity|].
      destruct (fst (for_each _ _ _ _)) as [[st' image']|e];
        [|split; [apply R|discriminate]].
      destruct R as (R1 & R2 & R3 & R4 & _).
      repeat split; try assumption; discriminate.
    + rewrite (bind_raise _ _ _ _ _ (show_category_unbound t1 st image c w L)).
      exists []. cbn. rewrite app_nil_r. repeat split; auto. discriminate.
Qed.

Lemma calc_fps_spec (st : Locals) (w : World) :
  if counter st mod 10 =? 0 then
    let e := next (w_clock w) in
    match float_div 10 (e - start_time st) with
    | Raise x =>
        exists w', calc_fps st w = (Raise x, w') /\
                   w_trace w' = (w_trace w ++ [EvTime e])%list
    | Ok f =>
        exists w' t, calc_fps st w = (Ok (set_fps (Float f) t st), w') /\
                     w_trace w' = (w_trace w ++ [EvTime e; EvTime t])%list /\
                     w_keys w' = w_keys w
    end
  else calc_fps st w = (Ok st, w).
Proof.
  unfold calc_fps. change _FPS_AVERAGE_FRAME_COUNT with 10.
  destruct (counter st mod 10 =? 0); [|reflexivity].
  cbn zeta. unfold bind, lift, time_time, ret. cbn beta iota zeta.
  destruct (float_div 10 (next (w_clock w) - start_time st)) as [f|x].
  - eexists _, _. split; [reflexivity|].
    cbn. rewrite <- app_assoc. split; reflexivity.
  - eexists. split; reflexivity.
Qed.

Lemma show_fps_spec (st : Locals) (image : canvas) (w : World) :
  match fps_text (fps st) with
  | Raise e => show_fps st image w = (Raise e, w)
  | Ok text =>
      show_fps st image w =
        (Ok (draw image (fps_overlay text)), emit (EvPutText (fps_overlay text)) w)
  end.
Proof.
  unfold show_fps, bind, lift.
  destruct (fps_text (fps st)); reflexivity.
Qed.

Lemma stop_or_show_spec (st : Locals) (image : canvas) (w : World) :
  let key := next (w_keys w) in
  exists w',
    stop_or_show st image w =
      (Ok (if key =? 27 then Break st else Continue st), w') /\
    w_trace w' =
      (w_trace w ++ EvWaitKey 1 key ::
         (if key =? 27 then [] else [EvImshow "image_classification" image]))%list.
Proof.
  intros key. unfold stop_or_show, bind. cbn [waitKey].
  fold key. destruct (key =? 27).
  - eexists. split; reflexivity.
  - eexists. split; [reflexivity|].
    cbn. rewrite <- app_assoc. reflexivity.
Qed.

(** Lines 126-150. *)
Lemma fps_tail_spec (st : Locals) (image : canvas) (w : World) :
  exists evs,
    w_trace (snd ((st <- calc_fps st ;;
                   image <- show_fps st image ;;
                   stop_or_show st image) w)) = (w_trace w ++ evs)%list /\
    fps_tail st image (next (w_keys w))
      (fst ((st <- calc_fps st ;;
             image <- show_fps st image ;;
             stop_or_show st image) w)) evs.
Proof.
  assert (T : forall st w,
    exists evs,
      w_trace (snd ((image <- show_fps st image ;; stop_or_show st image) w)) =
        (w_trace w ++ evs)%list /\
      overlay_tail st image (next (w_keys w))
        (fst ((image <- show_fps st image ;; stop_or_show st image) w)) evs).
  { clear. intros st w. unfold overlay_tail.
    pose proof (show_fps_spec st image w) as S.
    destruct (fps_text (fps st)) as [text|e].
    - rewrite (bind_ok _ _ _ _ _ S).
      destruct (stop_or_show_spec st (draw image (fps_overlay text))
                  (emit (EvPutText (fps_overlay text)) w)) as (w' & E & Tr).
      rewrite E. eexists. split.
      + cbn [snd]. rewrite Tr. cbn [emit w_trace].
        rewrite <- app_assoc. reflexivity.
      + split; reflexivity.
    - rewrite (bind_raise _ _ _ _ _ S). exists [].
      cbn. rewrite app_nil_r. split; auto. }
  unfold fps_tail.
  pose proof (calc_fps_spec st w) as C.
  destruct (counter st mod 10 =? 0).
  - cbn zeta in C.
    destruct (float_div 10 (next (w_clock w) - start_time st)) as [f|x] eqn:D.
    + destruct C as (w' & t & E & Tr & K).
      rewrite (bind_ok _ _ _ _ _ E).
      destruct (T (set_fps (Float f) t st) w') as (evs & Tr' & O).
      rewrite K in O.
      eexists. split.
      * rewrite Tr', Tr, <- app_assoc. reflexivity.
      * exists (next (w_clock w)). rewrite D. exists t, evs. split; [reflexivity|exact O].
    + destruct C as (w' & E & Tr).
      rewrite (bind_raise _ _ _ _ _ E).
      eexists. split; [exact Tr|].
      exists (next (w_clock w)). rewrite D. split; reflexivity.
  - rewrite (bind_ok _ _ _ _ _ C). apply T.
Qed.

(** One call to the world: the bind is unfolded and the new world
    flattened. *)
Ltac step :=
  unfold bind at 1;
  cbn [cap_read time_time classifier_classify waitKey cap_isOpened tell emit
       w_model w_clock w_opened w_camera w_classify w_keys w_trace].

Ltac trace_eq :=
  cbn [w_trace emit fst snd]; rewrite <- ?app_assoc; reflexivity.

Lemma loop_body_spec (st : Locals) (w : World) (r : result flow) (w' : World) :
  loop_body st w = (r, w') ->
  match next (w_camera w) with
  | None =>
      r = Raise (SystemExit read_error) /\
      w_trace w' = (w_trace w ++ [EvRead None])%list
  | Some img =>
      let T := Task.create_from_array (cvtColor (flip img 1) COLOR_BGR2RGB) in
      let R := next (w_classify w) T in
      exists evs,
        w_trace w' =
          (w_trace w ++ EvRead (Some img) :: EvTime (next (w_clock w)) ::
             EvTime (next (rest (w_clock w))) :: EvClassify T R :: evs)%list /\
        body_tail st (flip img 1) (Task.classifications R)
          (next (w_keys w)) r evs
  end.
Proof.
  unfold loop_body. step.
  destruct (next (w_camera w)) as [img|].
  - cbn zeta. step. step. step.
    unfold body_tail.
    destruct (Task.classifications _) as [|group groups].
    + step. cbn [first raise]. intros E. inversion E; subst r w'; clear E.
      exists []. split; [trace_eq|]. split; reflexivity.
    + step. cbn [first ret]. unfold bind at 1.
      match goal with |- context [for_each ?b ?l ?s ?w0] =>
        pose proof (show_results_spec (next (rest (w_clock w))) l
                      (set_counter (counter st + 1) st) (blank (flip img 1)) w0) as S;
        destruct (for_each b l s w0) as [[[st2 image2]|e] w4]
      end.
      * intros E. destruct S as (cevs & Tr & Fa & K & C & F & B & P & Z).
        pose proof (fps_tail_spec st2 image2 w4) as (evs' & Tr' & Ft).
        rewrite E in Tr', Ft. cbn [fst snd] in *. rewrite K in Ft.
        cbn [w_keys emit] in Ft.
        exists (cevs ++ evs')%list. split.
        { rewrite Tr', Tr. trace_eq. }
        exists cevs. split; [exact Fa|]. right.
        exists st2, image2, evs'. split; [reflexivity|].
        split; [exact C|]. split; [exact F|]. split; [exact B|].
        split; [exact P|]. split; [|exact Ft].
        intros H. destruct (Z H) as (-> & -> & ->). repeat split.
      * intros E. inversion E; subst r w'; clear E.
        destruct S as (cevs & Tr & Fa & _ & -> & Ne). cbn [snd] in Tr.
        exists cevs. split.
        { rewrite Tr. trace_eq. }
        exists cevs. split; [exact Fa|]. left. repeat split. exact Ne.
  - cbn [sys_exit raise]. intros E. inversion E; subst r w'; clear E.
    split; [reflexivity|trace_eq].
Qed.

Lemma float_div_ok (a b f : float) :
  float_div a b = Ok f -> f = (a / b)%float /\ (b =? 0)%float = false.
Proof.
  unfold float_div. destruct (b =? 0)%float; [discriminate|].
  intros E. inversion E. split; reflexivity.
Qed.

(** An iteration that runs to its last line, step by step. *)
Lemma loop_body_ok (st : Locals) (w : World) (fl : flow) (w' : World) :
  loop_body st w = (Ok fl, w') ->
  let key := next (w_keys w) in
  exists img group groups cevs st2 image fevs st3 text,
    let T := Task.create_from_array (cvtColor (flip img 1) COLOR_BGR2RGB) in
    let R := next (w_classify w) T in
    next (w_camera w) = Some img /\
    Task.classifications R = group :: groups /\
    Forall cat_event cevs /\
    (counter st2 = counter st + 1 /\ fps st2 = fps st /\
     start_time st2 = start_time st /\ cv_pixels image = flip img 1) /\
    (Task.categories group = [] ->
       cevs = [] /\ cv_texts image = [] /\
       category_name st2 = category_name st) /\
    ((counter st2 mod 10 =? 0) = false /\ fevs = [] /\ st3 = st2 \/
     (counter st2 mod 10 =? 0) = true /\
     exists e t,
       fevs = [EvTime e; EvTime t] /\
       st3 = set_fps (Float (10 / (e - start_time st2))) t st2) /\
    fps_text (fps st3) = Ok text /\
    fl = (if key =? 27 then Break st3 else Continue st3) /\
    w_trace w' =
      (w_trace w ++
       EvRead (Some img) :: EvTime (next (w_clock w)) ::
       EvTime (next (rest (w_clock w))) :: EvClassify T R ::
       cevs ++ fevs ++
       EvPutText (fps_overlay text) :: EvWaitKey 1 key ::
       (if key =? 27 then []
        else [EvImshow "image_classification" (draw image (fps_overlay text))]))%list.
Proof.
  intros E key. pose proof (loop_body_spec st w _ _ E) as S.
  destruct (next (w_camera w)) as [img|]; [|destruct S; discriminate].
  cbn zeta in S. destruct S as (evs & Tr & B).
  unfold body_tail in B.
  destruct (Task.classifications _) as [|group groups] eqn:G;
    [destruct B; discriminate|].
  destruct B as (cevs & Fa & [[B _] | B]); [discriminate|].
  destruct B as (st2 & image & evs' & -> & C & F & S0 & P & Z & Ft).
  assert (O : forall st3 evs'',
             overlay_tail st3 image key (Ok fl) evs'' ->
             exists text,
               fps_text (fps st3) = Ok text /\
               fl = (if key =? 27 then Break st3 else Continue st3) /\
               evs'' =
                 (EvPutText (fps_overlay text) :: EvWaitKey 1 key ::
                    (if key =? 27 then []
                     else [EvImshow "image_classification"
                             (draw image (fps_overlay text))]))%list).
  { intros st3 evs''. unfold overlay_tail.
    destruct (fps_text (fps st3)) as [text|x]; [|intros [? _]; discriminate].
    cbn zeta. intros [-> H]. exists text. inversion H. repeat split. }
  unfold fps_tail in Ft.
  destruct (counter st2 mod 10 =? 0) eqn:D.
  - destruct Ft as (e & Ft).
    destruct (float_div 10 (e - start_time st2)) as [f|x] eqn:Dv;
      [|destruct Ft; discriminate].
    destruct Ft as (t & evs'' & -> & Ov).
    destruct (O _ _ Ov) as (text & Tx & Fl & ->).
    apply float_div_ok in Dv as [-> _].
    exists img, group, groups, cevs, st2, image, [EvTime e; EvTime t],
      (set_fps (Float (10 / (e - start_time st2))) t st2), text.
    cbn zeta. split; [reflexivity|]. split; [exact G|].
    split; [exact Fa|]. split; [auto|]. split; [exact Z|].
    split; [|split; [exact Tx|split; [exact Fl|exact Tr]]].
    right. split; [exact D|]. exists e, t. split; reflexivity.
  - destruct (O _ _ Ft) as (text & Tx & Fl & ->).
    exists img, group, groups, cevs, st2, image, [], st2, text.
    cbn zeta. split; [reflexivity|]. split; [exact G|].
    split; [exact Fa|]. split; [auto|]. split; [exact Z|].
    split; [|split; [exact Tx|split; [exact Fl|exact Tr]]].
    left. split; [exact D|]. split; reflexivity.
Qed.

(** ** The loop *)

Lemma cat_event_tail_event (e : event) : cat_event e -> tail_event e.
Proof. destruct e; cbn; tauto. Qed.

Lemma tail_event_loop_event (e : event) : tail_event e -> loop_event e.
Proof. destruct e; cbn; tauto. Qed.

Lemma overlay_tail_events (st : Locals) (image : canvas) (key : Z)
    (r : result flow) (evs : list event) :
  overlay_tail st image key r evs -> Forall tail_event evs.
Proof.
  unfold overlay_tail. destruct (fps_text (fps st)) as [text|x].
  - cbn zeta. intros [-> _]. destruct (key =? 27); repeat constructor.
  - intros [_ ->]. constructor.
Qed.

Lemma fps_tail_events (st : Locals) (image : canvas) (key : Z)
    (r : result flow) (evs : list event) :
  fps_tail st image key r evs -> Forall tail_event evs.
Proof.
  unfold fps_tail. destruct (counter st mod 10 =? 0).
  - intros (e & H). destruct (float_div 10 (e - start_time st)) as [f|x].
    + destruct H as (t & evs' & -> & O).
      repeat (constructor; [exact I|]). eapply overlay_tail_events, O.
    + destruct H as [_ ->]. repeat constructor.
  - apply overlay_tail_events.
Qed.

Lemma body_tail_events (st : Locals) (flipped : frame)
    (groups : list Task.Classifications) (key : Z)
    (r : result flow) (evs : list event) :
  body_tail st flipped groups key r evs -> Forall tail_event evs.
Proof.
  unfold body_tail. destruct groups as [|group groups].
  - intros [_ ->]. constructor.
  - intros (cevs & Fa & [(_ & -> & _) | (st2 & image & evs' & -> & H)]).
    + eapply Forall_impl; [|exact Fa]. apply cat_event_tail_event.
    + apply Forall_app. split.
      * eapply Forall_impl; [|exact Fa]. apply cat_event_tail_event.
      * eapply fps_tail_events. apply H.
Qed.

(** Whatever an iteration does, it only adds events of the loop. *)
Lemma loop_body_events (st : Locals) (w : World) (r : result flow) (w' : World) :
  loop_body st w = (r, w') ->
  exists evs, w_trace w' = (w_trace w ++ evs)%list /\ Forall loop_event evs.
Proof.
  intros E. pose proof (loop_body_spec st w r w' E) as S.
  destruct (next (w_camera w)) as [img|].
  - cbn zeta in S. destruct S as (evs & Tr & B).
    eexists. split; [exact Tr|].
    repeat (constructor; [exact I|]).
    eapply Forall_impl; [|eapply body_tail_events, B].
    apply tail_event_loop_event.
  - destruct S as [_ Tr]. eexists. split; [exact Tr|]. repeat constructor.
Qed.

Lemma fps_step_extend (tr more : list event) (prev cur : Locals) :
  fps_step tr prev cur -> fps_step (tr ++ more) prev cur.
Proof.
  unfold fps_step. intros [C H]. split; [exact C|].
  destruct (counter cur mod 10 =? 0); [|exact H].
  destruct H as (e & pre & post & F & ->).
  exists e, pre, (post ++ more)%list. split; [exact F|].
  rewrite <- app_assoc. reflexivity.
Qed.

Lemma fps_chain_extend (tr more : list event) (l : list Locals) :
  forall prev, fps_chain tr prev l -> fps_chain (tr ++ more) prev l.
Proof.
  induction l as [|cur l IH]; intros prev; cbn [fps_chain]; [auto|].
  intros [S C]. split; [apply fps_step_extend, S | apply IH, C].
Qed.

(** An iteration that runs to its end is one step of the FPS state. *)
Lemma loop_body_fps_step (st : Locals) (w : World) (fl : flow) (w' : World) :
  loop_body st w = (Ok fl, w') -> fps_step (w_trace w') st (locals_of fl).
Proof.
  intros E.
  destruct (loop_body_ok st w fl w' E)
    as (img & group & groups & cevs & st2 & image & fevs & st3 & text &
        _ & _ & _ & (C & F & S0 & _) & _ & D & _ & Fl & Tr).
  assert (L : locals_of fl = st3) by (rewrite Fl; destruct (_ =? 27); reflexivity).
  rewrite L. unfold fps_step.
  destruct D as [(D & _ & ->) | (D & e & t & -> & ->)].
  - split; [exact C|]. rewrite D. split; assumption.
  - cbn [counter set_fps fps start_time]. split; [exact C|]. rewrite D.
    exists e.
    eexists (w_trace w ++
             EvRead (Some img) :: EvTime (next (w_clock w)) ::
             EvTime (next (rest (w_clock w))) :: EvClassify _ _ :: cevs)%list, _.
    split; [rewrite S0; reflexivity|].
    rewrite Tr, <- app_assoc. cbn [app]. reflexivity.
Qed.

Lemma last_cons {A} (a d : A) (l : list A) : last (a :: l) d = last l a.
Proof.
  revert a d. induction l as [|b l IH]; intros a d; [reflexivity|].
  change (last (a :: b :: l) d) with (last (b :: l) d).
  rewrite (IH b d), (IH b a). reflexivity.
Qed.

Lemma cap_isOpened_eq (w : World) :
  exists w1, cap_isOpened w = (Ok (next (w_opened w)), w1) /\
             w_trace w1 = (w_trace w ++ [EvIsOpened (next (w_opened w))])%list /\
             w_camera w1 = w_camera w /\ w_keys w1 = w_keys w /\
             w_clock w1 = w_clock w /\ w_classify w1 = w_classify w.
Proof. eexists. repeat split. Qed.

(** A cancelled iteration ends with the poll that read the key 27. *)
Lemma loop_body_break (st st' : Locals) (w w' : World) :
  loop_body st w = (Ok (Break st'), w') ->
  next (w_keys w) = 27 /\
  exists pre, w_trace w' = (w_trace w ++ pre ++ [EvWaitKey 1 27])%list /\
              Forall loop_event pre.
Proof.
  intros E.
  destruct (loop_body_ok st w _ w' E)
    as (img & group & groups & cevs & st2 & image & fevs & st3 & text &
        _ & _ & Fa & _ & _ & D & _ & Fl & Tr).
  destruct (Z.eqb_spec (next (w_keys w)) 27) as [K|K]; [|discriminate].
  split; [exact K|]. rewrite K in Tr.
  exists (EvRead (Some img) :: EvTime (next (w_clock w)) ::
          EvTime (next (rest (w_clock w))) ::
          EvClassify
            (Task.create_from_array (cvtColor (flip img 1) COLOR_BGR2RGB))
            (next (w_classify w)
               (Task.create_from_array (cvtColor (flip img 1) COLOR_BGR2RGB))) ::
          cevs ++ fevs ++ [EvPutText (fps_overlay text)])%list.
  split.
  - rewrite Tr. cbn [app]. rewrite <- !app_assoc. reflexivity.
  - repeat (constructor; [exact I|]).
    apply Forall_app. split.
    + eapply Forall_impl; [|exact Fa]. apply cat_event_loop_event.
    + apply Forall_app. split; [|repeat constructor].
      destruct D as [(_ & -> & _) | (_ & e & t & -> & _)]; repeat constructor.
Qed.

(** The loop: [seen] grows by the iterations that ran to their end, each
    one a step of the FPS state; the trace grows by events of the loop; the
    loop is left without an exception only after the key 27 was read or
    [cap.isOpened()] returned false. *)
Lemma capture_loop_inv (fuel : nat) :
  forall st seen w e seen' w',
    capture_loop fuel st seen w = (e, seen', w') ->
    exists new evs,
      seen' = (seen ++ new)%list /\
      w_trace w' = (w_trace w ++ evs)%list /\
      Forall loop_event evs /\
      fps_chain (w_trace w') st new /\
      match e with
      | Running st' => st' = last new st
      | Exited (Ok st') =>
          st' = last new st /\
          exists pre l, evs = (pre ++ [l])%list /\
                        (l = EvWaitKey 1 27 \/ l = EvIsOpened false)
      | Exited (Raise _) => True
      end.
Proof.
  induction fuel as [|fuel IH]; intros st seen w e seen' w'.
  - cbn [capture_loop]. intros E. inversion E; subst.
    exists [], []. rewrite !app_nil_r. repeat split. constructor.
  - cbn [capture_loop].
    destruct (cap_isOpened_eq w) as (w1 & -> & T1 & _).
    destruct (next (w_opened w)) eqn:Op.
    + destruct (loop_body st w1) as [[[st'|st']|x] w2] eqn:B.
      * (* the iteration goes on *)
        intros E. apply IH in E.
        destruct E as (new & evs & -> & Tr & Fa & Ch & R).
        destruct (loop_body_events _ _ _ _ B) as (evs1 & Tr1 & Fa1).
        pose proof (loop_body_fps_step _ _ _ _ B) as St. cbn [locals_of] in St.
        exists (st' :: new), (EvIsOpened true :: evs1 ++ evs)%list.
        split; [rewrite <- app_assoc; reflexivity|].
        split; [rewrite Tr, Tr1, T1, <- !app_assoc; reflexivity|].
        split.
        { constructor; [exact I|]. apply Forall_app. split; assumption. }
        split.
        { cbn [fps_chain]. split; [|exact Ch].
          rewrite Tr. apply fps_step_extend, St. }
        destruct e as [st''|[st''|x]]; rewrite ?last_cons; try exact R.
        destruct R as (R & pre & l & -> & L). split; [exact R|].
        exists (EvIsOpened true :: evs1 ++ pre)%list, l.
        split; [|exact L]. cbn [app]. rewrite <- app_assoc. reflexivity.
      * (* the key 27 *)
        intros E. inversion E; subst; clear E.
        destruct (loop_body_break _ _ _ _ B) as (_ & pre & Tr & Fa).
        pose proof (loop_body_fps_step _ _ _ _ B) as St. cbn [locals_of] in St.
        exists [st'], (EvIsOpened true :: pre ++ [EvWaitKey 1 27])%list.
        split; [reflexivity|].
        split; [rewrite Tr, T1, <- !app_assoc; reflexivity|].
        split.
        { constructor; [exact I|]. apply Forall_app.
          split; [exact Fa|repeat constructor]. }
        split; [cbn [fps_chain]; auto|].
        split; [reflexivity|].
        exists (EvIsOpened true :: pre)%list, (EvWaitKey 1 27).
        split; [reflexivity|left; reflexivity].
      * (* an exception *)
        intros E. inversion E; subst; clear E.
        destruct (loop_body_events _ _ _ _ B) as (evs1 & Tr1 & Fa1).
        exists [], (EvIsOpened true :: evs1)%list.
        split; [rewrite app_nil_r; reflexivity|].
        split; [rewrite Tr1, T1, <- !app_assoc; reflexivity|].
        split; [constructor; [exact I|exact Fa1]|].
        split; exact I.
    + intros E. inversion E; subst; clear E.
      exists [], [EvIsOpened false].
      split; [rewrite app_nil_r; reflexivity|].
      split; [exact T1|].
      split; [repeat constructor|].
      split; [exact I|].
      split; [reflexivity|].
      exists [], (EvIsOpened false). split; [reflexivity|right; reflexivity].
Qed.

(** ** The FPS over a run *)

Lemma fps_chain_nth (tr : list event) (l : list Locals) :
  forall prev j cur,
    fps_chain tr prev l -> nth_error l j = Some cur ->
    fps_step tr (match j with O => prev | S j' => nth j' l prev end) cur.
Proof.
  induction l as [|a l IH]; intros prev j cur Ch N.
  - destruct j; discriminate.
  - destruct Ch as [St Ch]. destruct j as [|j].
    + inversion N; subst. exact St.
    + cbn [nth_error] in N. specialize (IH a j cur Ch N).
      destruct j as [|j']; [exact IH|]. cbn [nth].
      replace (nth j' l prev) with (nth j' l a); [exact IH|].
      apply nth_indep.
      assert (S j' < List.length l)%nat by (apply nth_error_Some; congruence).
      lia.
Qed.

Lemma fps_chain_counter (tr : list event) (l : list Locals) :
  forall prev j cur,
    fps_chain tr prev l -> nth_error l j = Some cur ->
    counter cur = counter prev + Z.of_nat j + 1.
Proof.
  induction l as [|a l IH]; intros prev j cur Ch N.
  - destruct j; discriminate.
  - destruct Ch as [[C _] Ch]. destruct j as [|j].
    + inversion N; subst. lia.
    + cbn [nth_error] in N. rewrite (IH a j cur Ch N). lia.
Qed.

Lemma tenth_step (c : Z) :
  (if (c + 1) mod 10 =? 0 then 1 else 0) = (c + 1) / 10 - c / 10.
Proof.
  destruct (Z.eqb_spec ((c + 1) mod 10) 0) as [E|E];
    Z.div_mod_to_equations; lia.
Qed.

Lemma fps_chain_count (tr : list event) (l : list Locals) :
  forall prev,
    fps_chain tr prev l ->
    Z.of_nat (List.length (filter (fun st => counter st mod 10 =? 0) l)) =
    (counter prev + Z.of_nat (List.length l)) / 10 - counter prev / 10.
Proof.
  induction l as [|a l IH]; intros prev Ch.
  - cbn. rewrite Z.add_0_r. lia.
  - destruct Ch as [[C _] Ch]. specialize (IH a Ch).
    cbn [filter List.length]. rewrite C in *.
    pose proof (tenth_step (counter prev)) as T.
    destruct ((counter prev + 1) mod 10 =? 0); cbn [List.length];
      rewrite ?Nat2Z.inj_succ;
      replace (counter prev + Z.succ (Z.of_nat (List.length l)))
        with (counter prev + 1 + Z.of_nat (List.length l)) by lia; lia.
Qed.

Lemma fps_chain_zero (tr : list event) (l : list Locals) :
  forall prev,
    fps_chain tr prev l -> 0 <= counter prev ->
    (counter prev < 10 -> fps prev = Int 0) ->
    forall st, In st l ->
      counter prev < counter st /\ (counter st < 10 -> fps st = Int 0).
Proof.
  induction l as [|a l IH]; intros prev Ch P0 Z0 st I; [destruct I|].
  destruct Ch as [[C St] Ch].
  assert (A : counter a < 10 -> fps a = Int 0).
  { intros L.
    replace (counter a mod 10 =? 0) with false in St.
    - destruct St as [-> _]. apply Z0. lia.
    - symmetry. apply Z.eqb_neq. rewrite Z.mod_small; lia. }
  destruct I as [<- | I].
  - split; [lia | exact A].
  - destruct (IH a Ch ltac:(lia) A st I) as [L R]. split; [lia | exact R].
Qed.

Lemma setup_spec (a : Args) (w : World) :
  match w_model w with
  | Some msg =>
      setup (model a) (maxResults a) (scoreThreshold a) (numThreads a)
        (enableEdgeTPU a) (cameraId a) (frameWidth a) (frameHeight a) w =
        (Raise (RuntimeError msg), w)
  | None =>
      exists w0 o,
        setup (model a) (maxResults a) (scoreThreshold a) (numThreads a)
          (enableEdgeTPU a) (cameraId a) (frameWidth a) (frameHeight a) w =
          (Ok {| counter := 0; fps := Int 0; start_time := next (w_clock w);
                 category_name := None |}, w0) /\
        w_trace w0 =
          (w_trace w ++
           [EvCreateClassifier o; EvTime (next (w_clock w));
            EvVideoCapture (cameraId a); EvCapSet 3 (frameWidth a);
            EvCapSet 4 (frameHeight a)])%list
  end.
Proof.
  destruct (w_model w) as [msg|] eqn:Mo.
  - unfold setup, bind at 1, create_from_options. rewrite Mo. reflexivity.
  - eexists _, _. split.
    + unfold setup, bind at 1, create_from_options. rewrite Mo. reflexivity.
    + cbn. rewrite <- !app_assoc. reflexivity.
Qed.

Lemma cleanup_spec (w : World) :
  exists w', cleanup w = (Ok tt, w') /\
             w_trace w' = (w_trace w ++ [EvRelease; EvDestroyAllWindows])%list.
Proof.
  eexists. split; [reflexivity|]. cbn. rewrite <- app_assoc. reflexivity.
Qed.

(** C1: over the frames a run has processed (those whose iteration ran to
    its end, collected in [seen]), the counter of the [j]-th one is [j];
    the FPS is recomputed exactly on the frames whose counter is a multiple
    of 10, as [10 / (end_time - start_time)] with [start_time] the start of
    the window left by the frame before, and the window start is then reset
    to the next reading of the clock; on every other frame both are those
    of the frame before; so over [C] frames it is recomputed [C / 10] times,
    and it is the [int] 0 until the counter reaches 10. *)
Theorem fps_recomputed_every_tenth_frame (fuel : nat) (a : Args) (w : World) :
  let out := main fuel a w in
  let seen := snd (fst out) in
  let tr := w_trace (snd out) in
  let init := {| counter := 0; fps := Int 0; start_time := next (w_clock w);
                 category_name := None |} in
  (forall j cur,
      nth_error seen j = Some cur ->
      counter cur = Z.of_nat j + 1 /\
      fps_step tr (match j with O => init | S j' => nth j' seen init end) cur) /\
  Z.of_nat (List.length (filter (fun st => counter st mod 10 =? 0) seen)) =
    Z.of_nat (List.length seen) / 10 /\
  (forall st, In st seen -> counter st < 10 -> fps st = Int 0).
Proof.
  intros out seen tr init.
  assert (Ch : fps_chain tr init seen).
  { subst out seen tr. unfold main, run.
    pose proof (setup_spec a w) as S.
    destruct (w_model w) as [msg|].
    - rewrite S. exact I.
    - destruct S as (w0 & o & -> & _). fold init.
      destruct (capture_loop fuel init [] w0) as [[e seen'] w1] eqn:L.
      destruct (capture_loop_inv _ _ _ _ _ _ _ L)
        as (new & evs & -> & _ & _ & Ch & _).
      cbn [app].
      destruct e as [st'|[st'|x]]; cbn [fst snd]; try exact Ch.
      destruct (cleanup_spec w1) as (w2 & -> & T2). cbn [fst snd].
      rewrite T2. apply fps_chain_extend, Ch. }
  split; [|split].
  - intros j cur N. split.
    + rewrite (fps_chain_counter _ _ _ _ _ Ch N). cbn. lia.
    + exact (fps_chain_nth _ _ _ _ _ Ch N).
  - rewrite (fps_chain_count _ _ _ Ch). cbn [counter init].
    rewrite Z.add_0_l. change (0 / 10) with 0. lia.
  - intros st I L.
    destruct (fps_chain_zero _ _ _ Ch ltac:(cbn; lia) ltac:(reflexivity) st I)
      as [_ R].
    exact (R L).
Qed.

Lemma fps_recomputed_every_tenth_frame_witness :
  Z.of_nat
    (List.length
       (filter (fun st => counter st mod 10 =? 0)
          (snd (fst (main 40 default_args Sample.thirty_frames))))) = 3.
Proof.
  destruct (fps_recomputed_every_tenth_frame 40 default_args Sample.thirty_frames)
    as (_ & Count & _).
  rewrite Count. vm_compute. reflexivity.
Defined.

(** The scenario of 30 frames: ten texts for each label, in this order, and
    the FPS recomputed on frames 10, 20 and 30. *)
Example thirty_frames_run :
  let out := main 40 default_args Sample.thirty_frames in
  fst (fst out) = Some (Ok tt) /\
  Sample.result_texts (w_trace (snd out)) =
    (repeat " Classification Result >> hp 90.0%" 10 ++
     repeat " Classification Result >> mouse 75.0%" 10 ++
     repeat " Classification Result >> diki 60.0%" 10)%list /\
  map counter (filter (fun st => counter st mod 10 =? 0) (snd (fst out))) =
    [10; 20; 30] /\
  map (fun st => (counter st, fps st))
    (filter (fun st => (counter st =? 9) || (counter st =? 10)) (snd (fst out))) =
    [(9, Int 0); (10, Float (10 / (107.75 - 100)))].
Proof. vm_compute. repeat split. Qed.

(** ** How a run ends *)

(** Fuel that was not needed changes nothing. *)
Lemma capture_loop_running (k : nat) :
  forall st seen w st' seen' w' n,
    capture_loop k st seen w = (Running st', seen', w') ->
    capture_loop (k + n) st seen w = capture_loop n st' seen' w'.
Proof.
  induction k as [|k IH]; intros st seen w st' seen' w' n.
  - cbn. intros E. inversion E. reflexivity.
  - cbn [capture_loop Nat.add].
    destruct (cap_isOpened w) as [[[|]|x] w1]; try discriminate.
    destruct (loop_body st w1) as [[[st1|st1]|x] w2]; try discriminate.
    apply IH.
Qed.

Lemma main_from (k n : nat) (a : Args) (w : World)
    (st : Locals) (seen : list Locals) (wk : World) :
  entering k a w = Some (st, seen, wk) ->
  main (k + n) a w =
    match capture_loop n st seen wk with
    | (Running _, seen', w1) => (None, seen', w1)
    | (Exited (Raise e), seen', w1) => (Some (Raise e), seen', w1)
    | (Exited (Ok _), seen', w1) =>
        let (r, w2) := cleanup w1 in (Some r, seen', w2)
    end.
Proof.
  unfold entering, main, run.
  destruct (setup _ _ _ _ _ _ _ _ w) as [[st0|x] w0]; [|discriminate].
  destruct (capture_loop k st0 [] w0) as [[[st'|r] seen'] w'] eqn:L;
    [|discriminate].
  intros E. inversion E; subst.
  rewrite (capture_loop_running _ _ _ _ _ _ _ n L). reflexivity.
Qed.

(** C5: when the run is at the top of its loop and the camera is open, a
    read that fails ends the run at once with [sys.exit] and its message:
    the only events after [cap.isOpened()] is the failed read (no
    classifier call, no second read, no clean-up), the message goes to
    standard error and the exit status is not 0.  When instead the
    iteration runs to its end and reads the key 27, the run returns after
    the clean-up and the exit status is 0. *)
Theorem read_failure_exits (k fuel : nat) (a : Args) (w : World)
    (st : Locals) (seen : list Locals) (wk : World) :
  entering k a w = Some (st, seen, wk) ->
  (k < fuel)%nat ->
  next (w_opened wk) = true ->
  (next (w_camera wk) = None ->
   exists w',
     main fuel a w = (Some (Raise (SystemExit read_error)), seen, w') /\
     w_trace w' = (w_trace wk ++ [EvIsOpened true; EvRead None])%list /\
     exit_code (Raise (SystemExit read_error)) <> 0 /\
     stderr_message (Raise (SystemExit read_error)) =
       Some (read_error ++ newline)) /\
  (forall fl w2,
     loop_body st (snd (cap_isOpened wk)) = (Ok fl, w2) ->
     next (w_keys wk) = 27 ->
     exists w',
       main fuel a w = (Some (Ok tt), (seen ++ [locals_of fl])%list, w') /\
       w_trace w' = (w_trace w2 ++ [EvRelease; EvDestroyAllWindows])%list /\
       exit_code (Ok tt) = 0).
Proof.
  intros En Lt Op.
  destruct fuel as [|fuel]; [lia|].
  replace (S fuel) with (k + S (fuel - k))%nat by lia.
  rewrite (main_from _ _ _ _ _ _ _ En).
  cbn [capture_loop].
  destruct (cap_isOpened_eq wk) as (w1 & Eo & T1 & Ca & Ke & _).
  rewrite Eo, Op. rewrite Op in T1. cbn [snd]. split.
  - intros Fail.
    pose proof (loop_body_spec st w1) as S.
    destruct (loop_body st w1) as [r w2].
    specialize (S r w2 eq_refl). rewrite Ca, Fail in S. destruct S as [-> Tr].
    exists w2. split; [reflexivity|]. split.
    + rewrite Tr, T1, <- app_assoc. reflexivity.
    + split; [discriminate|reflexivity].
  - intros fl w2 B K. rewrite B.
    destruct (loop_body_ok _ _ _ _ B) as (_ & _ & _ & _ & _ & _ & _ & st3 & _ &
                                          _ & _ & _ & _ & _ & _ & _ & Fl & _).
    rewrite Ke, K in Fl. cbn in Fl. subst fl. cbn [locals_of].
    destruct (cleanup_spec w2) as (w' & -> & T2).
    exists w'. split; [reflexivity|]. split; [exact T2|reflexivity].
Qed.

Lemma read_failure_exits_witness :
  fst (fst (main 5 default_args
              (Sample.world 1 Sample.never (fun _ => [Sample.category 0 0.9]))))
  = Some (Raise (SystemExit read_error)) /\
  fst (fst (main 5 default_args
              (Sample.world Sample.never 1 (fun _ => [Sample.category 0 0.9]))))
  = Some (Ok tt).
Proof.
  split.
  - edestruct (read_failure_exits 1 5 default_args
                 (Sample.world 1 Sample.never (fun _ => [Sample.category 0 0.9])))
      as [F _].
    + vm_compute. reflexivity.
    + lia.
    + reflexivity.
    + destruct (F eq_refl) as (w' & E & _). rewrite E. reflexivity.
  - edestruct (read_failure_exits 1 5 default_args
                 (Sample.world Sample.never 1 (fun _ => [Sample.category 0 0.9])))
      as [_ C].
    + vm_compute. reflexivity.
    + lia.
    + reflexivity.
    + match type of C with
      | forall fl w2, loop_body ?st ?w1 = _ -> _ =>
          destruct (loop_body st w1) as [r w2] eqn:B
      end.
      assert (R : exists fl, r = Ok fl).
      { apply (f_equal fst) in B. vm_compute in B. rewrite <- B.
        eexists. reflexivity. }
      destruct R as [fl ->].
      destruct (C fl w2 eq_refl eq_refl) as (w' & E & _).
      rewrite E. reflexivity.
Defined.

Lemma cat_event_before_poll (e : event) : cat_event e -> before_poll e.
Proof. destruct e; cbn; tauto. Qed.

Lemma loop_event_running (e : event) : loop_event e -> running_event e.
Proof. destruct e; cbn; tauto. Qed.

(** C6, amended: in an iteration that runs to its end the keyboard is
    polled first and the frame is shown after the poll, and only when the
    key is not 27: everything before the poll is neither a poll nor a
    display; when the key is 27 the iteration ends with the poll, the loop
    is left, and the frame of that iteration was not displayed. *)
Theorem poll_before_display (st : Locals) (w : World) (fl : flow) (w' : World) :
  loop_body st w = (Ok fl, w') ->
  let key := next (w_keys w) in
  exists before image,
    Forall before_poll before /\
    w_trace w' =
      (w_trace w ++ before ++ EvWaitKey 1 key ::
         (if key =? 27 then []
          else [EvImshow "image_classification" image]))%list /\
    fl = (if key =? 27 then Break (locals_of fl) else Continue (locals_of fl)).
Proof.
  intros E key.
  destruct (loop_body_ok st w fl w' E)
    as (img & group & groups & cevs & st2 & image & fevs & st3 & text &
        _ & _ & Fa & _ & _ & D & _ & Fl & Tr).
  fold key in Fl, Tr.
  exists (EvRead (Some img) :: EvTime (next (w_clock w)) ::
          EvTime (next (rest (w_clock w))) ::
          EvClassify
            (Task.create_from_array (cvtColor (flip img 1) COLOR_BGR2RGB))
            (next (w_classify w)
               (Task.create_from_array (cvtColor (flip img 1) COLOR_BGR2RGB))) ::
          cevs ++ fevs ++ [EvPutText (fps_overlay text)])%list,
         (draw image (fps_overlay text)).
  split; [|split].
  - repeat (constructor; [exact I|]).
    apply Forall_app. split.
    + eapply Forall_impl; [|exact Fa]. apply cat_event_before_poll.
    + apply Forall_app. split; [|repeat constructor].
      destruct D as [(_ & -> & _) | (_ & e & t & -> & _)]; repeat constructor.
  - rewrite Tr. cbn [app]. rewrite <- !app_assoc. reflexivity.
  - rewrite Fl. destruct (key =? 27); reflexivity.
Qed.

Lemma poll_before_display_witness :
  exists before image w',
    Forall before_poll before /\
    w_trace w' =
      (before ++ [EvWaitKey 1 (-1); EvImshow "image_classification" image])%list.
Proof.
  destruct (loop_body Sample.blank_locals
              (Sample.world Sample.never Sample.never (fun _ => [])))
    as [r w'] eqn:E.
  assert (R : exists fl, r = Ok fl).
  { apply (f_equal fst) in E. vm_compute in E. rewrite <- E. eexists. reflexivity. }
  destruct R as [fl ->].
  destruct (poll_before_display _ _ _ _ E) as (before & image & F & T & _).
  exists before, image, w'. split; [exact F|exact T].
Defined.

(** C6 as stated fails: when the key 27 is read in the first iteration,
    the run returns and nothing was ever displayed. *)
Lemma cancelled_frame_not_displayed :
  let out := main 5 default_args
               (Sample.world Sample.never 0 (fun _ => [Sample.category 0 0.9])) in
  fst (fst out) = Some (Ok tt) /\
  In (EvWaitKey 1 27) (w_trace (snd out)) /\
  filter Sample.is_imshow (w_trace (snd out)) = [].
Proof.
  vm_compute. split; [reflexivity|]. split; [|reflexivity].
  repeat (first [left; reflexivity | right]).
Qed.

(** C7, amended: a run that returns (the loop was left after the key 27
    or after [cap.isOpened()] returned false) ends with [cap.release()]
    and [cv2.destroyAllWindows()], called once each and last; a run that
    ends with an exception, [sys.exit] after a failed read included, never
    calls either. *)
Theorem cleanup_only_on_return (fuel : nat) (a : Args) (w : World)
    (r : result unit) (seen : list Locals) (w' : World) :
  main fuel a w = (Some r, seen, w') ->
  exists evs,
    w_trace w' = (w_trace w ++ evs)%list /\
    match r with
    | Ok _ =>
        exists pre l,
          evs = (pre ++ [l; EvRelease; EvDestroyAllWindows])%list /\
          (l = EvWaitKey 1 27 \/ l = EvIsOpened false) /\
          Forall running_event pre
    | Raise _ => Forall running_event evs
    end.
Proof.
  unfold main, run. pose proof (setup_spec a w) as S.
  destruct (w_model w) as [msg|].
  - rewrite S. intros E. inversion E; subst.
    exists []. rewrite app_nil_r. split; [reflexivity|constructor].
  - destruct S as (w0 & o & -> & T0).
    destruct (capture_loop fuel _ [] w0) as [[e seen'] w1] eqn:L.
    destruct (capture_loop_inv _ _ _ _ _ _ _ L)
      as (new & evs & _ & Tr & Fa & _ & R).
    assert (Fr : Forall running_event evs).
    { eapply Forall_impl; [|exact Fa]. apply loop_event_running. }
    destruct e as [st'|[st'|x]].
    + discriminate.
    + destruct (cleanup_spec w1) as (w2 & -> & T2).
      intros E. inversion E; subst.
      destruct R as (_ & pre & l & -> & Hl).
      eexists. split.
      { rewrite T2, Tr, T0, <- !app_assoc. reflexivity. }
      exists ([EvCreateClassifier o; EvTime (next (w_clock w));
               EvVideoCapture (cameraId a); EvCapSet 3 (frameWidth a);
               EvCapSet 4 (frameHeight a)] ++ pre)%list, l.
      split; [rewrite <- !app_assoc; reflexivity|]. split; [exact Hl|].
      apply Forall_app. split; [repeat constructor|].
      apply Forall_app in Fr. apply Fr.
    + intros E. inversion E; subst.
      eexists. split.
      { rewrite Tr, T0, <- !app_assoc. reflexivity. }
      apply Forall_app. split; [repeat constructor|exact Fr].
Qed.

Lemma cleanup_only_on_return_witness :
  exists pre,
    w_trace (snd (main 5 default_args
                    (Sample.world Sample.never 1
                       (fun _ => [Sample.category 2 0.6])))) =
      (pre ++ [EvWaitKey 1 27; EvRelease; EvDestroyAllWindows])%list /\
    Forall running_event pre.
Proof.
  destruct (main 5 default_args
              (Sample.world Sample.never 1 (fun _ => [Sample.category 2 0.6])))
    as [[r seen] w'] eqn:E.
  assert (R : r = Some (Ok tt)).
  { apply (f_equal (fun x => fst (fst x))) in E. vm_compute in E.
    symmetry. exact E. }
  subst r.
  destruct (cleanup_only_on_return _ _ _ _ _ _ E) as (evs & T & pre & l & -> & Hl & F).
  cbn [snd]. rewrite T. cbn [w_trace Sample.world app].
  assert (L : l = EvWaitKey 1 27).
  { destruct Hl as [Hl|Hl]; [exact Hl|exfalso].
    apply (f_equal (fun x => existsb
             (fun e => match e with EvIsOpened false => true | _ => false end)
             (w_trace (snd x)))) in E.
    cbn [snd] in E. rewrite T, Hl in E. cbn [w_trace Sample.world app] in E.
    rewrite existsb_app in E. cbn [existsb] in E.
    rewrite Bool.orb_true_r in E. vm_compute in E. discriminate. }
  subst l. exists pre. split; [reflexivity|exact F].
Defined.

(** C7 as stated fails: when the first read fails the run ends with
    [sys.exit] and neither [cap.release()] nor [cv2.destroyAllWindows()]
    was called. *)
Lemma read_failure_skips_cleanup :
  let out := main 5 default_args
               (Sample.world 0 Sample.never (fun _ => [Sample.category 0 0.9])) in
  fst (fst out) = Some (Raise (SystemExit read_error)) /\
  filter Sample.is_cleanup (w_trace (snd out)) = [].
Proof. vm_compute. split; reflexivity. Qed.

(** ** What the classifier is given *)

Lemma mirrored_rgb (img : frame) :
  cvtColor (flip img 1) COLOR_BGR2RGB =
    map (fun row => map swap_rb (rev row)) img.
Proof.
  unfold cvtColor, flip. cbn [Z.eqb Z.ltb Z.compare].
  rewrite map_map. reflexivity.
Qed.

Lemma mirrored_pixel (row : list pixel) (x : nat) (p : pixel) :
  nth_error row x = Some p ->
  nth_error (map swap_rb (rev row)) (List.length row - 1 - x) = Some (swap_rb p).
Proof.
  intros N.
  assert (L : (x < List.length row)%nat) by (apply nth_error_Some; congruence).
  rewrite nth_error_map, nth_error_rev.
  replace (Nat.ltb (List.length row - 1 - x) (List.length row)) with true
    by (symmetry; apply Nat.ltb_lt; lia).
  replace (List.length row - S (List.length row - 1 - x))%nat with x by lia.
  rewrite N. reflexivity.
Qed.

(** C9: for a frame that was read, the classifier is called once in the
    iteration, with the frame mirrored left to right and its channels
    swapped from BGR to RGB: the pixel that the camera delivered in column
    [x] of a row is, with its first and third channel exchanged, in column
    [width - 1 - x] of the same row of the image that the model sees. *)
Theorem classifier_sees_mirrored_rgb (st : Locals) (w : World) (img : frame) :
  next (w_camera w) = Some img ->
  let T := Task.create_from_array (cvtColor (flip img 1) COLOR_BGR2RGB) in
  (exists t0 t1 evs,
      w_trace (snd (loop_body st w)) =
        (w_trace w ++ EvRead (Some img) :: EvTime t0 :: EvTime t1 ::
           EvClassify T (next (w_classify w) T) :: evs)%list /\
      forall T' R', ~ In (EvClassify T' R') evs) /\
  Task.buffer T = map (fun row => map swap_rb (rev row)) img /\
  (forall y x row p,
      nth_error img y = Some row -> nth_error row x = Some p ->
      exists row',
        nth_error (Task.buffer T) y = Some row' /\
        nth_error row' (List.length row - 1 - x) =
          Some {| ch0 := ch2 p; ch1 := ch1 p; ch2 := ch0 p |}).
Proof.
  intros Cam T. split; [|split].
  - destruct (loop_body st w) as [r w'] eqn:E.
    pose proof (loop_body_spec st w r w' E) as S. rewrite Cam in S.
    cbn zeta in S. destruct S as (evs & Tr & B).
    exists (next (w_clock w)), (next (rest (w_clock w))), evs.
    split; [exact Tr|].
    intros T' R' I. apply body_tail_events in B.
    rewrite Forall_forall in B. exact (B _ I).
  - apply mirrored_rgb.
  - intros y x row p Ny Nx.
    exists (map swap_rb (rev row)). split.
    + unfold T. cbn [Task.buffer Task.create_from_array].
      rewrite mirrored_rgb, nth_error_map, Ny. reflexivity.
    + apply (mirrored_pixel row x p Nx).
Qed.

Lemma classifier_sees_mirrored_rgb_witness :
  exists t0 t1 evs R,
    w_trace (snd (loop_body Sample.blank_locals
                    (Sample.world Sample.never Sample.never (fun _ => [])))) =
      (EvRead (Some Sample.shot) :: EvTime t0 :: EvTime t1 ::
       EvClassify
         {| Task.buffer :=
              [[Sample.px x06 x05 x04; Sample.px x03 x02 x01];
               [Sample.px x0c x0b x0a; Sample.px x09 x08 x07]] |} R :: evs)%list.
Proof.
  destruct (classifier_sees_mirrored_rgb Sample.blank_locals
              (Sample.world Sample.never Sample.never (fun _ => []))
              Sample.shot eq_refl) as ((t0 & t1 & evs & Tr & _) & _).
  exists t0, t1, evs. eexists. exact Tr.
Defined.

(** ** An iteration without categories *)

Lemma float_of_int_raises (z : Z) (x : exn) :
  float_of_int z = Raise x -> fps_error x.
Proof.
  unfold float_of_int. destruct (is_infinity _); [|discriminate].
  intros E. inversion E. right. right. eexists. reflexivity.
Qed.

Lemma float_div_raises (a b : float) (x : exn) :
  float_div a b = Raise x -> fps_error x.
Proof.
  unfold float_div. destruct (b =? 0)%float; [|discriminate].
  intros E. inversion E. left. reflexivity.
Qed.

Lemma truediv_raises (a b : num) (x : exn) :
  truediv a b = Raise x -> fps_error x.
Proof.
  unfold truediv. destruct a as [p|f], b as [q|g].
  - destruct (q =? 0).
    + intros E. inversion E. left. reflexivity.
    + destruct (is_infinity _); [|discriminate].
      intros E. inversion E. right. right. eexists. reflexivity.
  - destruct (float_of_int p) as [fp|y] eqn:F.
    + destruct (float_div fp g) as [?|y] eqn:D; [discriminate|].
      intros E. inversion E; subst. eapply float_div_raises, D.
    + intros E. inversion E; subst. eapply float_of_int_raises, F.
  - destruct (float_of_int q) as [fq|y] eqn:F.
    + destruct (float_div f fq) as [?|y] eqn:D; [discriminate|].
      intros E. inversion E; subst. eapply float_div_raises, D.
    + intros E. inversion E; subst. eapply float_of_int_raises, F.
  - destruct (float_div f g) as [?|y] eqn:D; [discriminate|].
    intros E. inversion E; subst. eapply float_div_raises, D.
Qed.

Lemma mul_raises (a b : num) (x : exn) :
  mul a b = Raise x -> fps_error x.
Proof.
  unfold mul. destruct a as [p|f], b as [q|g]; try discriminate.
  - destruct (float_of_int p) eqn:F; [discriminate|].
    intros E. inversion E; subst. eapply float_of_int_raises, F.
  - destruct (float_of_int q) eqn:F; [discriminate|].
    intros E. inversion E; subst. eapply float_of_int_raises, F.
Qed.

Lemma int_raises (a : num) (x : exn) :
  int a = Raise x -> fps_error x.
Proof.
  unfold int. destruct a as [z|f]; [discriminate|].
  destruct (Prim2SF f); try discriminate; intros E; inversion E.
  - right. right. eexists. reflexivity.
  - right. left. eexists. reflexivity.
Qed.

Lemma fps_text_raises (f : num) (x : exn) :
  fps_text f = Raise x -> fps_error x.
Proof.
  unfold fps_text, fps_ms_raw.
  destruct (gt0 f).
  - destruct (truediv (Int 1) f) as [q|y] eqn:T.
    + destruct (mul q (Int 1000)) as [p|y] eqn:M.
      * destruct (int f) as [n|y] eqn:I; [discriminate|].
        intros E. inversion E; subst. eapply int_raises, I.
      * intros E. inversion E; subst. eapply mul_raises, M.
    + intros E. inversion E; subst. eapply truediv_raises, T.
  - destruct (int f) as [n|y] eqn:I; [discriminate|].
    intros E. inversion E; subst. eapply int_raises, I.
Qed.

(** C10, amended: in an iteration whose first classification group has no
    category, no result text is drawn and nothing is printed; the counter
    still goes up by one, the FPS state still makes its step, the FPS text
    is still drawn, and the frame is still displayed, unless the key read
    in that iteration is 27: then the loop is left before the display.  The
    only exceptions such an iteration can raise are those of the FPS
    lines. *)
Theorem empty_result_iteration (st : Locals) (w : World) (img : frame)
    (group : Task.Classifications) (groups : list Task.Classifications) :
  let T := Task.create_from_array (cvtColor (flip img 1) COLOR_BGR2RGB) in
  let R := next (w_classify w) T in
  let key := next (w_keys w) in
  next (w_camera w) = Some img ->
  Task.classifications R = group :: groups ->
  Task.categories group = [] ->
  (forall fl w',
      loop_body st w = (Ok fl, w') ->
      exists fevs text,
        counter (locals_of fl) = counter st + 1 /\
        category_name (locals_of fl) = category_name st /\
        fps_step (w_trace w') st (locals_of fl) /\
        fps_text (fps (locals_of fl)) = Ok text /\
        (fevs = [] \/ exists e t, fevs = [EvTime e; EvTime t]) /\
        fl = (if key =? 27 then Break (locals_of fl)
              else Continue (locals_of fl)) /\
        w_trace w' =
          (w_trace w ++
           EvRead (Some img) :: EvTime (next (w_clock w)) ::
           EvTime (next (rest (w_clock w))) :: EvClassify T R ::
           fevs ++
           EvPutText (fps_overlay text) :: EvWaitKey 1 key ::
           (if key =? 27 then []
            else [EvImshow "image_classification"
                    {| cv_pixels := flip img 1;
                       cv_texts := [fps_overlay text] |}]))%list) /\
  (forall x w', loop_body st w = (Raise x, w') -> fps_error x).
Proof.
  intros T R key Cam G Empty. split.
  - intros fl w' E.
    pose proof (loop_body_fps_step _ _ _ _ E) as St.
    destruct (loop_body_ok st w fl w' E)
      as (img' & group' & groups' & cevs & st2 & image & fevs & st3 & text &
          Cam' & G' & _ & (C & _ & _ & P) & Z & D & Tx & Fl & Tr).
    rewrite Cam in Cam'. inversion Cam'; subst img'. clear Cam'.
    fold T R in G'. rewrite G in G'. inversion G'; subst group' groups'.
    destruct (Z Empty) as (-> & Tx0 & Cn). fold key in Fl, Tr.
    assert (L : locals_of fl = st3)
      by (rewrite Fl; destruct (key =? 27); reflexivity).
    rewrite L in *.
    assert (Im : draw image (fps_overlay text) =
                 {| cv_pixels := flip img 1; cv_texts := [fps_overlay text] |}).
    { destruct image as [px tx]. cbn in P, Tx0. subst. reflexivity. }
    exists fevs, text.
    split; [destruct D as [(_ & _ & ->) | (_ & e & t & _ & ->)]; exact C|].
    split; [destruct D as [(_ & _ & ->) | (_ & e & t & _ & ->)]; exact Cn|].
    split; [exact St|]. split; [exact Tx|].
    split; [destruct D as [(_ & -> & _) | (_ & e & t & -> & _)];
            [left; reflexivity | right; exists e, t; reflexivity]|].
    split; [exact Fl|].
    rewrite Tr, Im. reflexivity.
  - intros x w' E.
    pose proof (loop_body_spec st w _ _ E) as S. rewrite Cam in S.
    cbn zeta in S. destruct S as (evs & _ & B).
    fold T R in B. unfold body_tail in B. rewrite G in B.
    destruct B as (cevs & _ & [(_ & _ & Ne) | (st2 & image & evs' & _ & _ & _ & _ & _ & _ & Ft)]);
      [contradiction|].
    assert (O : forall st3 evs'', overlay_tail st3 image key (Raise x) evs'' ->
                                  fps_error x).
    { intros st3 evs''. unfold overlay_tail.
      destruct (fps_text (fps st3)) as [text|y] eqn:Tx.
      - cbn zeta. intros [_ H]. discriminate.
      - intros [H _]. inversion H; subst. eapply fps_text_raises, Tx. }
    unfold fps_tail in Ft. destruct (counter st2 mod 10 =? 0).
    + destruct Ft as (e & Ft).
      destruct (float_div 10 (e - start_time st2)) as [f|y] eqn:Dv.
      * destruct Ft as (t & evs'' & _ & Ov). eapply O, Ov.
      * destruct Ft as [H _]. inversion H; subst. eapply float_div_raises, Dv.
    + eapply O, Ft.
Qed.

Lemma empty_result_iteration_witness :
  exists fevs text w',
    w_trace w' =
      (EvRead (Some Sample.shot) :: EvTime 100 :: EvTime 100.25 ::
       EvClassify
         (Task.create_from_array (cvtColor (flip Sample.shot 1) COLOR_BGR2RGB))
         (Sample.answer []) ::
       fevs ++
       [EvPutText (fps_overlay text); EvWaitKey 1 (-1);
        EvImshow "image_classification"
          {| cv_pixels := flip Sample.shot 1;
             cv_texts := [fps_overlay text] |}])%list.
Proof.
  destruct (loop_body Sample.blank_locals
              (Sample.world Sample.never Sample.never (fun _ => [])))
    as [r w'] eqn:E.
  assert (Rk : exists fl, r = Ok fl).
  { apply (f_equal fst) in E. vm_compute in E. rewrite <- E. eexists. reflexivity. }
  destruct Rk as [fl ->].
  destruct (empty_result_iteration Sample.blank_locals
              (Sample.world Sample.never Sample.never (fun _ => []))
              Sample.shot _ [] eq_refl eq_refl eq_refl) as [H _].
  destruct (H fl w' E) as (fevs & text & _ & _ & _ & _ & _ & _ & Tr).
  exists fevs, text, w'. exact Tr.
Defined.

(** C10 as stated fails: when the model returns no category and the key
    27 is read in that iteration, the frame is not displayed. *)
Lemma empty_result_not_displayed :
  let out := main 5 default_args
               (Sample.world Sample.never 0 (fun _ => [])) in
  fst (fst out) = Some (Ok tt) /\
  filter Sample.is_putText (w_trace (snd out)) =
    [EvPutText (fps_overlay "0 fps / 0 ms")] /\
  filter Sample.is_imshow (w_trace (snd out)) = [].
Proof. vm_compute. repeat split. Qed.

(** ** The FPS text of an iteration *)

(** C4, amended: the FPS text is ["{int(fps)} fps / {ms_per_frame} ms"]:
    the FPS is shown truncated to an integer; [ms_per_frame] is
    [round((1/fps)*1000, 2)] when [fps > 0] and [0] otherwise, in particular
    when [fps == 0].  In an iteration that runs to its end, the text drawn
    at (25, 30) is this text for the FPS at the end of the iteration. *)
Theorem fps_text_format :
  (forall f : float,
      (0 <? f)%float = true ->
      fps_text (Float f) =
        match int (Float f) with
        | Ok n => Ok (str_int n ++ " fps / " ++
                      str_float (round_float (1 / f * 1000) 2) ++ " ms")
        | Raise e => Raise e
        end) /\
  (forall fps : num,
      gt0 fps = false ->
      fps_text fps =
        match int fps with
        | Ok n => Ok (str_int n ++ " fps / " ++ "0" ++ " ms")
        | Raise e => Raise e
        end) /\
  fps_text (Int 0) = Ok "0 fps / 0 ms" /\
  fps_text (Float 0) = Ok "0 fps / 0 ms" /\
  (forall st w fl w',
      loop_body st w = (Ok fl, w') ->
      exists text pre post,
        fps_text (fps (locals_of fl)) = Ok text /\
        w_trace w' =
          (w_trace w ++ pre ++
           EvPutText {| ov_text := text; ov_org := (25, 30); ov_fontFace := 4;
                        ov_fontScale := 0.5; ov_color := (255, 255, 255);
                        ov_thickness := 1 |} :: post)%list /\
        Forall before_poll pre).
Proof.
  split; [|split; [|split; [|split]]].
  - intros f H. unfold fps_text. rewrite (fps_ms_raw_positive f H).
    reflexivity.
  - intros fps H. unfold fps_text, fps_ms_raw. rewrite H. reflexivity.
  - vm_compute. reflexivity.
  - vm_compute. reflexivity.
  - intros st w fl w' E.
    destruct (loop_body_ok st w fl w' E)
      as (img & group & groups & cevs & st2 & image & fevs & st3 & text &
          _ & _ & Fa & _ & _ & D & Tx & Fl & Tr).
    assert (L : locals_of fl = st3)
      by (rewrite Fl; destruct (_ =? 27); reflexivity).
    rewrite L. exists text.
    exists (EvRead (Some img) :: EvTime (next (w_clock w)) ::
            EvTime (next (rest (w_clock w))) ::
            EvClassify
              (Task.create_from_array (cvtColor (flip img 1) COLOR_BGR2RGB))
              (next (w_classify w)
                 (Task.create_from_array (cvtColor (flip img 1) COLOR_BGR2RGB))) ::
            cevs ++ fevs)%list.
    eexists. split; [exact Tx|]. split.
    + rewrite Tr. cbn [app]. rewrite <- !app_assoc. reflexivity.
    + repeat (constructor; [exact I|]).
      apply Forall_app. split.
      * eapply Forall_impl; [|exact Fa]. apply cat_event_before_poll.
      * destruct D as [(_ & -> & _) | (_ & e & t & -> & _)]; repeat constructor.
Qed.

Lemma fps_text_format_witness :
  fps_text (Float 47.5) = Ok "47 fps / 21.05 ms".
Proof.
  rewrite (proj1 fps_text_format 47.5%float eq_refl).
  vm_compute. reflexivity.
Defined.

(** C4 as stated fails: at 47.5 frames per second the text is
    ["47 fps / 21.05 ms"], not ["47.5 fps / 21.05 ms"]. *)
Lemma fps_text_truncates :
  fps_text (Float 47.5) = Ok "47 fps / 21.05 ms" /\
  fps_text (Float 47.5) <>
    Ok (str (Float 47.5) ++ " fps / " ++
        str (Float (round_float (1 / 47.5 * 1000) 2)) ++ " ms").
Proof.
  split; [vm_compute; reflexivity|].
  vm_compute. discriminate.
Qed.

(* ================================================================== *)
(** * More on the loop *)
(* ================================================================== *)

(** ** The [for] loop in full *)

Lemma count_app (p : event -> bool) (a b : list event) :
  count p (a ++ b) = (count p a + count p b)%nat.
Proof. unfold count. rewrite filter_app, length_app. reflexivity. Qed.

Lemma count_none (p : event -> bool) (Q : event -> Prop) (l : list event) :
  (forall e, Q e -> p e = false) -> Forall Q l -> count p l = 0%nat.
Proof.
  intros H F. unfold count. induction F as [|e l Qe F IH]; [reflexivity|].
  cbn [filter]. rewrite (H e Qe). exact IH.
Qed.

(** One category whose label is known: what is drawn, where the clock and
    the keyboard stand afterwards. *)
Lemma show_category_step (t1 : float) (st : Locals) (image : canvas)
    (c : Task.Category) (w : World) (name : string) :
  label_lookup (Task.index c) (category_name st) = Some name ->
  let o := result_overlay (result_text name (Task.score c)) in
  exists w' line1 line2,
    show_category t1 (st, image) c w =
      (Ok (set_category_name (Some name) st, draw image o), w') /\
    w_trace w' =
      (w_trace w ++ [EvPutText o; EvTime (next (w_clock w)); EvPrint line1;
                     EvPrint line2])%list /\
    (forall k, w_clock w' k = w_clock w (S k)) /\
    w_keys w' = w_keys w.
Proof.
  intros L o. unfold show_category. rewrite L.
  eexists _, _, _. split; [reflexivity|].
  cbn. rewrite <- !app_assoc. repeat split.
Qed.

Lemma show_results_full (t1 : float) (cats : list Task.Category) :
  forall (st : Locals) (image : canvas) (w : World),
  match for_each (show_category t1) cats (st, image) w with
  | (Ok (st', image'), w') =>
      exists texts evs,
        w_trace w' = (w_trace w ++ evs)%list /\
        Forall cat_event evs /\
        (counter st' = counter st /\ fps st' = fps st /\
         start_time st' = start_time st) /\
        image' = {| cv_pixels := cv_pixels image;
                    cv_texts := (cv_texts image ++ texts)%list |} /\
        List.length texts = List.length cats /\
        Forall (fun o => ov_org o = (50, 450)) texts /\
        filter is_text evs = map EvPutText texts /\
        count is_time evs = List.length cats /\
        count is_print evs = (2 * List.length cats)%nat /\
        (forall k, w_clock w' k = w_clock w (List.length cats + k)%nat) /\
        w_keys w' = w_keys w /\
        (cats = [] -> st' = st) /\
        (cats <> [] \/ category_name st <> None -> category_name st' <> None)
  | (Raise e, w') =>
      e = UnboundLocalError "category_name" /\ w' = w /\
      category_name st = None /\
      exists c rest, cats = c :: rest /\ ~ known_index c
  end.
Proof.
  induction cats as [|c cats IH]; intros st image w.
  - cbn [for_each ret]. exists [], [].
    rewrite !app_nil_r. destruct image.
    repeat split; try reflexivity; try constructor.
    intros [H|H]; [contradiction|exact H].
  - cbn [for_each].
    destruct (label_lookup (Task.index c) (category_name st)) as [name|] eqn:L.
    + destruct (show_category_step t1 st image c w name L)
        as (w1 & l1 & l2 & E & T & Ck & K).
      rewrite (bind_ok _ _ _ _ _ E).
      specialize (IH (set_category_name (Some name) st)
                    (draw image (result_overlay (result_text name (Task.score c))))
                    w1).
      destruct (for_each _ cats _ w1) as [[[st' image']|e] w'].
      * destruct IH as (texts & evs & Tr & Fa & (C & F & S0) & Im & Ln & Og &
                        Tx & Nt & Np & Ck' & K' & _ & Nm).
        exists (result_overlay (result_text name (Task.score c)) :: texts).
        eexists. split; [rewrite Tr, T, <- app_assoc; reflexivity|].
        split; [repeat (constructor; [exact I|]); exact Fa|].
        split; [auto|].
        split; [rewrite Im; cbn [draw cv_pixels cv_texts];
                rewrite <- app_assoc; reflexivity|].
        split; [cbn [List.length]; rewrite Ln; reflexivity|].
        split; [constructor; [reflexivity|exact Og]|].
        split; [cbn [app filter is_text map]; rewrite Tx; reflexivity|].
        split; [rewrite count_app, Nt; reflexivity|].
        split; [rewrite count_app, Np; cbn [List.length]; unfold count;
                cbn [filter is_print List.length]; lia|].
        split; [intros k; rewrite Ck', Ck; cbn [List.length];
                f_equal; lia|].
        split; [rewrite K', K; reflexivity|].
        split; [discriminate|].
        intros _. apply Nm. right. discriminate.
      * destruct IH as (_ & _ & N & _). discriminate N.
    + rewrite (bind_raise _ _ _ _ _ (show_category_unbound t1 st image c w L)).
      split; [reflexivity|]. split; [reflexivity|].
      assert (N : category_name st = None /\ ~ known_index c).
      { unfold label_lookup in L. unfold known_index.
        destruct (Z.eqb_spec (Task.index c) 0); [discriminate|].
        destruct (Z.eqb_spec (Task.index c) 1); [discriminate|].
        destruct (Z.eqb_spec (Task.index c) 2); [discriminate|].
        split; [exact L|]. intros [H|[H|H]]; contradiction. }
      split; [apply N|]. exists c, cats. split; [reflexivity|apply N].
Qed.

(** ** One iteration, by cases *)

(** After a frame was read: the world [w3] in which the [for] loop starts,
    and how the iteration goes on from there. *)
Lemma loop_body_cases (st : Locals) (w : World) (r : result flow) (w' : World)
    (img : frame) :
  loop_body st w = (r, w') ->
  next (w_camera w) = Some img ->
  let T := Task.create_from_array (cvtColor (flip img 1) COLOR_BGR2RGB) in
  let R := next (w_classify w) T in
  exists w3,
    w_trace w3 =
      (w_trace w ++ [EvRead (Some img); EvTime (next (w_clock w));
                     EvTime (next (rest (w_clock w))); EvClassify T R])%list /\
    (forall k, w_clock w3 k = w_clock w (2 + k)%nat) /\
    w_keys w3 = w_keys w /\
    match Task.classifications R with
    | [] => r = Raise (IndexError "list index out of range") /\ w' = w3
    | group :: _ =>
        match for_each (show_category (next (rest (w_clock w))))
                (Task.categories group)
                (set_counter (counter st + 1) st, blank (flip img 1)) w3 with
        | (Raise e, w4) => r = Raise e /\ w' = w4
        | (Ok (st2, image), w4) =>
            (st <- calc_fps st2 ;;
             image <- show_fps st image ;;
             stop_or_show st image) w4 = (r, w')
        end
    end.
Proof.
  intros E Cam T R. revert E. unfold loop_body. step. rewrite Cam.
  cbn zeta. step. step. step. fold T R. intros E.
  eexists. split; [|split; [|split]].
  4: { revert E. destruct (Task.classifications R) as [|group groups].
       - step. cbn [first raise]. intros E. inversion E. split; reflexivity.
       - step. cbn [first ret]. unfold bind at 1.
         destruct (for_each _ _ _ _) as [[[st2 image]|e] w4].
         + intros E. exact E.
         + intros E. inversion E. split; reflexivity. }
  - cbn [w_trace emit]. rewrite <- !app_assoc. reflexivity.
  - intros k. reflexivity.
  - reflexivity.
Qed.

(** The FPS lines and the poll, when they run to the end. *)
Lemma fps_tail_ok (st : Locals) (image : canvas) (key : Z) (fl : flow)
    (evs : list event) :
  fps_tail st image key (Ok fl) evs ->
  exists fevs st3 text,
    ((counter st mod 10 =? 0) = false /\ fevs = [] /\ st3 = st \/
     (counter st mod 10 =? 0) = true /\
     exists e t,
       fevs = [EvTime e; EvTime t] /\
       st3 = set_fps (Float (10 / (e - start_time st))) t st) /\
    fps_text (fps st3) = Ok text /\
    fl = (if key =? 27 then Break st3 else Continue st3) /\
    evs =
      (fevs ++ EvPutText (fps_overlay text) :: EvWaitKey 1 key ::
         (if key =? 27 then []
          else [EvImshow "image_classification"
                  (draw image (fps_overlay text))]))%list.
Proof.
  assert (O : forall st3 evs'',
             overlay_tail st3 image key (Ok fl) evs'' ->
             exists text,
               fps_text (fps st3) = Ok text /\
               fl = (if key =? 27 then Break st3 else Continue st3) /\
               evs'' =
                 (EvPutText (fps_overlay text) :: EvWaitKey 1 key ::
                    (if key =? 27 then []
                     else [EvImshow "image_classification"
                             (draw image (fps_overlay text))]))%list).
  { intros st3 evs''. unfold overlay_tail.
    destruct (fps_text (fps st3)) as [text|x]; [|intros [? _]; discriminate].
    cbn zeta. intros [-> H]. exists text. inversion H. repeat split. }
  unfold fps_tail. destruct (counter st mod 10 =? 0).
  - intros (e & Ft).
    destruct (float_div 10 (e - start_time st)) as [f|x] eqn:Dv;
      [|destruct Ft; discriminate].
    destruct Ft as (t & evs'' & -> & Ov).
    destruct (O _ _ Ov) as (text & Tx & Fl & ->).
    apply float_div_ok in Dv as [-> _].
    exists [EvTime e; EvTime t], (set_fps (Float (10 / (e - start_time st))) t st),
      text.
    split; [right; split; [reflexivity|]; exists e, t; split; reflexivity|].
    repeat split; assumption.
  - intros Ft. destruct (O _ _ Ft) as (text & Tx & Fl & ->).
    exists [], st, text.
    split; [left; repeat split|]. repeat split; assumption.
Qed.

(** The FPS lines and the poll, when they raise: only the clock was read. *)
Lemma fps_tail_raise (st : Locals) (image : canvas) (key : Z) (x : exn)
    (evs : list event) :
  fps_tail st image key (Raise x) evs ->
  fps_error x /\ Forall (fun e => is_time e = true) evs.
Proof.
  assert (O : forall st3 evs'',
             overlay_tail st3 image key (Raise x) evs'' ->
             fps_error x /\ evs'' = []).
  { intros st3 evs''. unfold overlay_tail.
    destruct (fps_text (fps st3)) as [text|y] eqn:Tx.
    - cbn zeta. intros [_ H]. discriminate.
    - intros [H ->]. inversion H; subst. split; [|reflexivity].
      eapply fps_text_raises, Tx. }
  unfold fps_tail. destruct (counter st mod 10 =? 0).
  - intros (e & Ft).
    destruct (float_div 10 (e - start_time st)) as [f|y] eqn:Dv.
    + destruct Ft as (t & evs'' & -> & Ov).
      destruct (O _ _ Ov) as [Fe ->]. split; [exact Fe|repeat constructor].
    + destruct Ft as [H ->]. inversion H; subst.
      split; [eapply float_div_raises, Dv|repeat constructor].
  - intros Ft. destruct (O _ _ Ft) as [Fe ->]. split; [exact Fe|constructor].
Qed.

(** The [for] loop neither reads a frame, nor calls the model, nor polls
    the keyboard, nor displays. *)
Lemma cat_event_quiet (l : list event) :
  Forall cat_event l ->
  count is_read_ok l = 0%nat /\ count is_classify l = 0%nat /\
  count is_waitKey l = 0%nat /\ count is_esc l = 0%nat /\
  count is_display l = 0%nat.
Proof.
  intros F. repeat split;
    (eapply count_none; [|exact F]; intros [] H; try reflexivity; destruct H).
Qed.

Lemma no_text_no_result_text (l : list event) :
  filter is_text l = [] -> count is_result_text l = 0%nat.
Proof.
  unfold count. induction l as [|e l IH]; [reflexivity|].
  destruct e; cbn [filter is_text is_result_text]; try exact IH.
  discriminate.
Qed.

Lemma count_cons (p : event -> bool) (e : event) (l : list event) :
  count p (e :: l) = ((if p e then 1 else 0) + count p l)%nat.
Proof. unfold count. cbn [filter]. destruct (p e); reflexivity. Qed.

Lemma count_nil (p : event -> bool) : count p [] = 0%nat.
Proof. reflexivity. Qed.

(** Everything an iteration leaves in the trace, counted. *)
Lemma loop_body_summary (st : Locals) (w : World) (r : result flow) (w' : World) :
  loop_body st w = (r, w') ->
  exists evs,
    w_trace w' = (w_trace w ++ evs)%list /\
    count is_classify evs = count is_read_ok evs /\
    match r with
    | Ok fl =>
        count is_read_ok evs = 1%nat /\ count is_waitKey evs = 1%nat /\
        (count is_display evs + count is_esc evs = 1)%nat /\
        count is_esc evs = match fl with Break _ => 1%nat | Continue _ => 0%nat end /\
        (category_name st <> None -> category_name (locals_of fl) <> None) /\
        (category_name (locals_of fl) = None -> count is_result_text evs = 0%nat)
    | Raise x =>
        count is_waitKey evs = 0%nat /\ count is_display evs = 0%nat /\
        count is_esc evs = 0%nat /\
        ((x = SystemExit read_error /\ evs = [EvRead None]) \/
         (body_error x /\ count is_read_ok evs = 1%nat /\
          (x = UnboundLocalError "category_name" ->
           category_name st = None /\ count is_result_text evs = 0%nat)))
    end.
Proof.
  intros E. destruct (next (w_camera w)) as [img|] eqn:Cam.
  2: { pose proof (loop_body_spec st w r w' E) as S. rewrite Cam in S.
       destruct S as [-> Tr]. exists [EvRead None].
       split; [exact Tr|]. repeat split. left. split; reflexivity. }
  destruct (loop_body_cases st w r w' img E Cam) as (w3 & T3 & _ & K3 & B).
  destruct (Task.classifications _) as [|group groups].
  { destruct B as [-> ->]. eexists. split; [exact T3|].
    repeat split. right. split; [left; reflexivity|].
    split; [reflexivity|discriminate]. }
  pose proof (show_results_full (next (rest (w_clock w))) (Task.categories group)
                (set_counter (counter st + 1) st) (blank (flip img 1)) w3) as S.
  destruct (for_each _ _ _ w3) as [[[st2 image]|e] w4].
  - destruct S as (texts & cevs & T4 & Fa & _ & _ & Ln & _ & Tx & _ & _ & _ &
                   K4 & _ & Nm).
    destruct (cat_event_quiet cevs Fa) as (Q1 & Q2 & Q3 & Q4 & Q5).
    pose proof (fps_tail_spec st2 image w4) as (tevs & T5 & Ft).
    rewrite B in T5, Ft. cbn [fst snd] in T5, Ft.
    exists ([EvRead (Some img); EvTime (next (w_clock w));
             EvTime (next (rest (w_clock w)));
             EvClassify
               (Task.create_from_array (cvtColor (flip img 1) COLOR_BGR2RGB))
               (next (w_classify w)
                  (Task.create_from_array (cvtColor (flip img 1) COLOR_BGR2RGB)))]
            ++ cevs ++ tevs)%list.
    split; [rewrite T5, T4, T3, <- !app_assoc; reflexivity|].
    destruct r as [fl|x].
    + destruct (fps_tail_ok _ _ _ _ _ Ft) as (fevs & st3 & text & D & _ & Fl & ->).
      assert (Ft0 : count is_read_ok fevs = 0%nat /\ count is_classify fevs = 0%nat /\
                    count is_waitKey fevs = 0%nat /\ count is_esc fevs = 0%nat /\
                    count is_display fevs = 0%nat /\
                    count is_result_text fevs = 0%nat /\
                    category_name st3 = category_name st2).
      { destruct D as [(_ & -> & ->) | (_ & e & t & -> & ->)]; repeat split. }
      destruct Ft0 as (F1 & F2 & F3 & F4 & F5 & F6 & Cn).
      assert (L : locals_of fl = st3)
        by (rewrite Fl; destruct (_ =? 27); reflexivity).
      rewrite L, Cn.
      rewrite !count_app, !count_cons, Q1, Q2, Q3, Q4, Q5, F1, F2, F3, F4, F5.
      cbn [is_read_ok is_classify is_waitKey is_esc is_display].
      rewrite K4, K3 in *.
      split; [destruct (next (w_keys w) =? 27); reflexivity|].
      split; [destruct (next (w_keys w) =? 27); reflexivity|].
      split; [destruct (next (w_keys w) =? 27); reflexivity|].
      split; [destruct (next (w_keys w) =? 27); reflexivity|].
      split; [rewrite Fl; destruct (next (w_keys w) =? 27); reflexivity|].
      split; [intros H; apply Nm; right; exact H|].
      intros N.
      assert (C0 : Task.categories group = []).
      { destruct (Task.categories group); [reflexivity|].
        exfalso. apply Nm; [left; discriminate|exact N]. }
      rewrite C0 in Ln. destruct texts; [|discriminate].
      rewrite F6, (no_text_no_result_text cevs Tx).
      destruct (next (w_keys w) =? 27); reflexivity.
    + destruct (fps_tail_raise _ _ _ _ _ Ft) as [Fe Ti].
      assert (Tq : count is_read_ok tevs = 0%nat /\ count is_classify tevs = 0%nat /\
                   count is_waitKey tevs = 0%nat /\ count is_esc tevs = 0%nat /\
                   count is_display tevs = 0%nat).
      { repeat split;
          (eapply count_none; [|exact Ti]; intros [] H; try reflexivity;
           discriminate H). }
      destruct Tq as (R1 & R2 & R3 & R4 & R5).
      rewrite !count_app, !count_cons, Q1, Q2, Q3, Q4, Q5, R1, R2, R3, R4, R5.
      repeat split. right.
      split; [right; right; exact Fe|]. split; [reflexivity|].
      intros ->. destruct Fe as [H|[[m H]|[m H]]]; discriminate H.
  - destruct S as (-> & -> & N & _). destruct B as [-> ->].
    eexists. split; [exact T3|]. repeat split. right.
    split; [right; left; reflexivity|]. split; [reflexivity|].
    intros _. split; [exact N|reflexivity].
Qed.

(** ** The loop, counted *)

Lemma capture_loop_tally (fuel : nat) :
  forall st seen w e seen' w',
    capture_loop fuel st seen w = (e, seen', w') ->
    exists new evs,
      seen' = (seen ++ new)%list /\
      w_trace w' = (w_trace w ++ evs)%list /\
      count is_classify evs = count is_read_ok evs /\
      count is_waitKey evs = List.length new /\
      (count is_display evs + count is_esc evs = List.length new)%nat /\
      (count is_esc evs <= 1)%nat /\
      match e with
      | Running _ =>
          count is_read_ok evs = List.length new /\ count is_esc evs = 0%nat
      | Exited (Ok _) => count is_read_ok evs = List.length new
      | Exited (Raise x) =>
          count is_esc evs = 0%nat /\
          ((x = SystemExit read_error /\
            count is_read_ok evs = List.length new /\
            exists pre, evs = (pre ++ [EvRead None])%list) \/
           (body_error x /\ count is_read_ok evs = S (List.length new)))
      end /\
      (e = Exited (Raise (UnboundLocalError "category_name")) ->
       category_name st = None /\ count is_result_text evs = 0%nat).
Proof.
  induction fuel as [|fuel IH]; intros st seen w e seen' w'.
  - cbn [capture_loop]. intros E. inversion E; subst.
    exists [], []. rewrite !app_nil_r.
    repeat (split; [try reflexivity; cbn; lia|]). intros H. discriminate H.
  - cbn [capture_loop].
    destruct (cap_isOpened_eq w) as (w1 & -> & T1 & _).
    destruct (next (w_opened w)) eqn:Op.
    + destruct (loop_body st w1) as [r w2] eqn:B.
      destruct (loop_body_summary _ _ _ _ B) as (evs1 & Tr1 & Cl1 & S1).
      destruct r as [[st'|st']|x].
      * (* the iteration goes on *)
        destruct S1 as (Rd1 & Wk1 & De1 & Es1 & Nm1 & Rt1).
        cbn [locals_of] in Nm1, Rt1.
        intros E. apply IH in E.
        destruct E as (new & evs & -> & Tr & Cl & Wk & De & Es & R & U).
        exists (st' :: new), (EvIsOpened true :: evs1 ++ evs)%list.
        split; [rewrite <- app_assoc; reflexivity|].
        split; [rewrite Tr, Tr1, T1, <- !app_assoc; reflexivity|].
        rewrite !count_cons, !count_app.
        cbn [is_classify is_read_ok is_waitKey is_display is_esc is_result_text
             List.length].
        split; [lia|]. split; [lia|]. split; [lia|]. split; [lia|].
        split.
        { destruct e as [st''|[st''|y]]; try lia.
          destruct R as [Ez [(-> & Rd & pre & ->) | (Be & Rd)]].
          - split; [lia|]. left. split; [reflexivity|]. split; [lia|].
            exists (EvIsOpened true :: evs1 ++ pre)%list.
            cbn [app]. rewrite <- app_assoc. reflexivity.
          - split; [lia|]. right. split; [exact Be|lia]. }
        intros Ee. destruct (U Ee) as [N Z].
        split.
        { destruct (category_name st) eqn:Cs; [|reflexivity].
          exfalso. apply Nm1; [discriminate|exact N]. }
        rewrite (Rt1 N), Z. reflexivity.
      * (* the key 27 *)
        destruct S1 as (Rd1 & Wk1 & De1 & Es1 & _).
        intros E. inversion E; subst; clear E.
        exists [st'], (EvIsOpened true :: evs1)%list.
        split; [reflexivity|].
        split; [rewrite Tr1, T1, <- !app_assoc; reflexivity|].
        rewrite !count_cons.
        cbn [is_classify is_read_ok is_waitKey is_display is_esc List.length].
        repeat (split; [try reflexivity; lia|]). intros H. discriminate H.
      * (* an exception *)
        destruct S1 as (Wk1 & De1 & Es1 & Ex).
        intros E. inversion E; subst; clear E.
        exists [], (EvIsOpened true :: evs1)%list.
        split; [rewrite app_nil_r; reflexivity|].
        split; [rewrite Tr1, T1, <- !app_assoc; reflexivity|].
        rewrite !count_cons.
        cbn [is_classify is_read_ok is_waitKey is_display is_esc is_result_text
             List.length].
        split; [lia|]. split; [lia|]. split; [lia|]. split; [lia|].
        split.
        { split; [lia|].
          destruct Ex as [(-> & ->) | (Be & Rd & _)].
          - left. split; [reflexivity|]. split; [reflexivity|].
            exists [EvIsOpened true]. reflexivity.
          - right. split; [exact Be|lia]. }
        intros Ee. inversion Ee; subst.
        destruct Ex as [(D & _) | (_ & _ & Un)]; [discriminate|].
        destruct (Un eq_refl) as [N Z]. split; [exact N|]. rewrite Z. reflexivity.
    + intros E. inversion E; subst; clear E.
      exists [], [EvIsOpened false].
      split; [rewrite app_nil_r; reflexivity|].
      split; [exact T1|].
      repeat (split; [try reflexivity; cbn; lia|]). intros H. discriminate H.
Qed.

(** ** Over a run *)

(** What a run adds to the trace: the set-up, the loop, the clean-up. *)
Lemma main_tally (fuel : nat) (a : Args) (w : World) :
  let out := main fuel a w in
  let r := fst (fst out) in
  let seen := snd (fst out) in
  exists evs,
    w_trace (snd out) = (w_trace w ++ evs)%list /\
    count is_classify evs = count is_read_ok evs /\
    count is_waitKey evs = List.length seen /\
    (count is_display evs + count is_esc evs = List.length seen)%nat /\
    (count is_esc evs <= 1)%nat /\
    match r with
    | None => count is_read_ok evs = List.length seen /\ count is_esc evs = 0%nat
    | Some (Ok _) => count is_read_ok evs = List.length seen
    | Some (Raise x) =>
        count is_esc evs = 0%nat /\
        ((exists msg, x = RuntimeError msg /\ w_model w = Some msg /\
                      evs = [] /\ seen = []) \/
         (x = SystemExit read_error /\
          count is_read_ok evs = List.length seen /\
          exists pre, evs = (pre ++ [EvRead None])%list) \/
         (body_error x /\ count is_read_ok evs = S (List.length seen) /\
          (x = UnboundLocalError "category_name" ->
           count is_result_text evs = 0%nat)))
    end.
Proof.
  cbn zeta. unfold main, run. pose proof (setup_spec a w) as S.
  destruct (w_model w) as [msg|].
  - rewrite S. cbn [fst snd]. exists []. rewrite app_nil_r.
    repeat (split; [try reflexivity; cbn; lia|]).
    left. exists msg. repeat split.
  - destruct S as (w0 & o & -> & T0).
    destruct (capture_loop fuel _ [] w0) as [[e seen'] w1] eqn:L.
    destruct (capture_loop_tally _ _ _ _ _ _ _ L)
      as (new & evs & -> & Tr & Cl & Wk & De & Es & R & U).
    cbn [app] in *.
    set (pre := [EvCreateClassifier o; EvTime (next (w_clock w));
                 EvVideoCapture (cameraId a); EvCapSet 3 (frameWidth a);
                 EvCapSet 4 (frameHeight a)]) in *.
    assert (P : forall p, In p [is_classify; is_read_ok; is_waitKey; is_display;
                                is_esc; is_result_text] ->
                          count p pre = 0%nat).
    { intros p [<-|[<-|[<-|[<-|[<-|[<-|[]]]]]]]; reflexivity. }
    destruct e as [st'|[st'|x]]; cbn [fst snd].
    + exists (pre ++ evs)%list.
      split; [rewrite Tr, T0, <- app_assoc; reflexivity|].
      rewrite !count_app, !P by (cbn; tauto). cbn [Nat.add].
      repeat (split; [assumption|]). exact R.
    + destruct (cleanup_spec w1) as (w2 & -> & T2). cbn [fst snd].
      exists (pre ++ evs ++ [EvRelease; EvDestroyAllWindows])%list.
      split; [rewrite T2, Tr, T0, <- !app_assoc; reflexivity|].
      rewrite !count_app, !P by (cbn; tauto).
      unfold count at 2 4 6 8 10 12. cbn [filter is_classify is_read_ok is_waitKey
        is_display is_esc List.length].
      rewrite !Nat.add_0_r. cbn [Nat.add].
      repeat (split; [assumption|]). exact R.
    + exists (pre ++ evs)%list.
      split; [rewrite Tr, T0, <- app_assoc; reflexivity|].
      rewrite !count_app, !P by (cbn; tauto). cbn [Nat.add].
      repeat (split; [assumption|]).
      destruct R as [Ez R]. split; [exact Ez|]. right.
      destruct R as [(-> & Rd & q & ->) | (Be & Rd)].
      * left. split; [reflexivity|]. split; [exact Rd|].
        exists (pre ++ q)%list. rewrite <- app_assoc. reflexivity.
      * right. split; [exact Be|]. split; [exact Rd|].
        intros ->. destruct (U eq_refl) as [_ Z]. exact Z.
Qed.

(** X1: in what a run adds to the trace, the model is called once for
    every frame read, the keyboard is polled once for every frame whose
    iteration ran to its end, each of these frames was either displayed or
    is the one on which the key 27 was read, the key 27 is read at most
    once (and then the run returns), and at most one frame was read without
    its iteration running to the end. *)
Theorem frames_counted (fuel : nat) (a : Args) (w : World) :
  let out := main fuel a w in
  let seen := snd (fst out) in
  exists evs,
    w_trace (snd out) = (w_trace w ++ evs)%list /\
    count is_classify evs = count is_read_ok evs /\
    count is_waitKey evs = List.length seen /\
    (count is_display evs + count is_esc evs = List.length seen)%nat /\
    (count is_esc evs <= 1)%nat /\
    (List.length seen <= count is_read_ok evs <= S (List.length seen))%nat /\
    (count is_esc evs = 1%nat -> fst (fst out) = Some (Ok tt)) /\
    (fst (fst out) = Some (Ok tt) \/ fst (fst out) = None ->
     count is_read_ok evs = List.length seen).
Proof.
  cbn zeta. destruct (main_tally fuel a w) as (evs & T & Cl & Wk & De & Es & R).
  cbn zeta in R. exists evs.
  repeat (split; [assumption|]).
  destruct (fst (fst (main fuel a w))) as [[[]|x]|].
  - split; [lia|]. split; [reflexivity|]. intros _. exact R.
  - destruct R as [Ez R]. split.
    + destruct R as [(msg & _ & _ & -> & ->) | [(_ & Rd & _) | (_ & Rd & _)]];
        [cbn; lia|lia|lia].
    + split; [intros H; rewrite Ez in H; discriminate H|].
      intros [H|H]; discriminate H.
  - destruct R as [Rd Ez]. split; [lia|].
    split; [intros H; rewrite Ez in H; discriminate H|].
    intros _. exact Rd.
Qed.

(** X2: when [cap.isOpened()] returns false at the top of the loop, no
    frame is read: the run makes its two clean-up calls and returns, and
    the exit status is 0.  With [k = 0] this is a camera that could not be
    opened: the script ends silently, with no error. *)
Theorem closed_camera_returns (k fuel : nat) (a : Args) (w : World)
    (st : Locals) (seen : list Locals) (wk : World) :
  entering k a w = Some (st, seen, wk) ->
  (k < fuel)%nat ->
  next (w_opened wk) = false ->
  exists w',
    main fuel a w = (Some (Ok tt), seen, w') /\
    w_trace w' =
      (w_trace wk ++ [EvIsOpened false; EvRelease; EvDestroyAllWindows])%list /\
    exit_code (Ok tt) = 0 /\ stderr_message (Ok tt) = None.
Proof.
  intros En Lt Op.
  destruct fuel as [|fuel]; [lia|].
  replace (S fuel) with (k + S (fuel - k))%nat by lia.
  rewrite (main_from _ _ _ _ _ _ _ En).
  cbn [capture_loop].
  destruct (cap_isOpened_eq wk) as (w1 & Eo & T1 & _).
  rewrite Eo, Op. rewrite Op in T1.
  destruct (cleanup_spec w1) as (w' & -> & T2).
  exists w'. split; [reflexivity|]. split.
  - rewrite T2, T1, <- app_assoc. reflexivity.
  - split; reflexivity.
Qed.

Lemma closed_camera_returns_witness :
  exists w',
    main 3 default_args Sample.closed_camera = (Some (Ok tt), [], w') /\
    w_trace w' =
      [EvCreateClassifier
         {| Task.base_options :=
              {| Task.file_name := "model/tes.tflite"; Task.use_coral := false;
                 Task.num_threads := 4 |};
            Task.classification_options :=
              {| Task.max_results := 1; Task.score_threshold := 0 |} |};
       EvTime 100; EvVideoCapture 0; EvCapSet 3 640; EvCapSet 4 480;
       EvIsOpened false; EvRelease; EvDestroyAllWindows].
Proof.
  edestruct (closed_camera_returns 0 3 default_args Sample.closed_camera)
    as (w' & E & T & _).
  - vm_compute. reflexivity.
  - lia.
  - reflexivity.
  - exists w'. split; [exact E|]. rewrite T. reflexivity.
Defined.



(** X4: the label can only be missing for the first category the model
    ever reports.  A run that ends with [UnboundLocalError] names the
    variable [category_name], and has not drawn a single result text
    before: once a result was shown, a category with an index other than
    0, 1 and 2 is shown under the previous label and never ends the run. *)
Theorem unbound_label_before_any_result (fuel : nat) (a : Args) (w : World)
    (name : string) (seen : list Locals) (w' : World) :
  main fuel a w = (Some (Raise (UnboundLocalError name)), seen, w') ->
  name = "category_name" /\
  exists evs,
    w_trace w' = (w_trace w ++ evs)%list /\
    count is_result_text evs = 0%nat.
Proof.
  intros E.
  destruct (main_tally fuel a w) as (evs & T & _ & _ & _ & _ & R).
  cbn zeta in R. rewrite E in T, R. cbn [fst snd] in T, R.
  destruct R as [_ [(msg & H & _) | [(H & _) | (Be & _ & U)]]];
    [discriminate H|discriminate H|].
  assert (N : name = "category_name").
  { destruct Be as [H|[H|[H|[[m H]|[m H]]]]]; try discriminate H.
    inversion H. reflexivity. }
  subst name. split; [reflexivity|].
  exists evs. split; [exact T|]. apply U. reflexivity.
Qed.

Lemma unbound_label_before_any_result_witness :
  fst (fst (main 5 default_args Sample.unknown_first)) =
    Some (Raise (UnboundLocalError "category_name")) /\
  exists evs,
    w_trace (snd (main 5 default_args Sample.unknown_first)) =
      (w_trace Sample.unknown_first ++ evs)%list /\
    count is_result_text evs = 0%nat.
Proof.
  destruct (main 5 default_args Sample.unknown_first) as [[r seen] w'] eqn:E.
  assert (R : r = Some (Raise (UnboundLocalError "category_name"))).
  { apply (f_equal (fun x => fst (fst x))) in E.
    vm_compute in E. symmetry. exact E. }
  subst r. split; [reflexivity|].
  exact (proj2 (unbound_label_before_any_result _ _ _ _ _ _ E)).
Defined.

(** X5: when the model's answer has no classification group at all,
    [categories.classifications[0]] raises [IndexError] right after the
    call of the model: nothing is drawn, printed, polled or displayed for
    that frame, and the iteration ends there. *)
Theorem no_classification_group (st : Locals) (w : World) (img : frame) :
  next (w_camera w) = Some img ->
  let T := Task.create_from_array (cvtColor (flip img 1) COLOR_BGR2RGB) in
  let R := next (w_classify w) T in
  Task.classifications R = [] ->
  exists w',
    loop_body st w = (Raise (IndexError "list index out of range"), w') /\
    w_trace w' =
      (w_trace w ++ [EvRead (Some img); EvTime (next (w_clock w));
                     EvTime (next (rest (w_clock w))); EvClassify T R])%list.
Proof.
  intros Cam T R Em.
  destruct (loop_body st w) as [r w'] eqn:E.
  destruct (loop_body_cases _ _ _ _ _ E Cam) as (w3 & Tr & _ & _ & C).
  fold T R in Tr, C. rewrite Em in C. destruct C as [-> ->].
  exists w3. split; [reflexivity|exact Tr].
Qed.

Lemma no_classification_group_witness :
  fst (loop_body Sample.blank_locals Sample.no_group) =
    Raise (IndexError "list index out of range") /\
  List.length (w_trace (snd (loop_body Sample.blank_locals Sample.no_group))) =
    4%nat.
Proof.
  destruct (no_classification_group Sample.blank_locals Sample.no_group
              Sample.shot eq_refl eq_refl) as (w' & E & T).
  rewrite E. cbn [fst snd]. rewrite T. split; reflexivity.
Defined.

(** ** The clock *)

(** A finite reading minus itself is zero. *)
Lemma sub_self_zero (t : float) :
  is_finite t = true -> (t - t =? 0)%float = true.
Proof.
  intros F. rewrite eqb_spec, sub_spec, sf_zero.
  unfold is_finite, is_nan, is_infinity in F.
  rewrite !eqb_spec, abs_spec in F.
  destruct (Prim2SF t) as [b|b| |s m e] eqn:P.
  - destruct b; reflexivity.
  - exfalso. destruct b; vm_compute in F; discriminate F.
  - exfalso. vm_compute in F. discriminate F.
  - unfold SF64sub, SFsub. rewrite Z.sub_diag. reflexivity.
Qed.

(** X6: on an iteration whose counter is a multiple of 10, if the clock
    read for [end_time] is the very reading kept in [start_time] (the clock
    did not advance over the last ten frames), the division of line 129
    raises [ZeroDivisionError]: the result texts were drawn and printed,
    but the FPS text is not drawn, the keyboard is not polled and the frame
    is not displayed.  The clock is read for [end_time] after two readings
    and one more for each category. *)
Theorem stalled_clock_zero_division (st : Locals) (w : World) (img : frame)
    (group : Task.Classifications) (groups : list Task.Classifications) :
  next (w_camera w) = Some img ->
  let T := Task.create_from_array (cvtColor (flip img 1) COLOR_BGR2RGB) in
  let R := next (w_classify w) T in
  Task.classifications R = group :: groups ->
  Forall known_index (Task.categories group) ->
  (counter st + 1) mod 10 = 0 ->
  is_finite (start_time st) = true ->
  w_clock w (2 + List.length (Task.categories group))%nat = start_time st ->
  exists w' cevs,
    loop_body st w = (Raise ZeroDivisionError, w') /\
    w_trace w' =
      (w_trace w ++
       [EvRead (Some img); EvTime (next (w_clock w));
        EvTime (next (rest (w_clock w))); EvClassify T R] ++
       cevs ++ [EvTime (start_time st)])%list /\
    Forall cat_event cevs /\
    count is_text cevs = List.length (Task.categories group).
Proof.
  intros Cam T R Gr Kn Ten Fin Stall.
  destruct (loop_body st w) as [r w'] eqn:E.
  destruct (loop_body_cases _ _ _ _ _ E Cam) as (w3 & Tr & Ck & _ & C).
  fold T R in Tr, C. rewrite Gr in C.
  pose proof (show_results_full (next (rest (w_clock w))) (Task.categories group)
                (set_counter (counter st + 1) st) (blank (flip img 1)) w3) as F.
  destruct (for_each _ _ _ w3) as [[[st2 image]|x] w4].
  - destruct F as (texts & cevs & Tr4 & Fa & (Cn & _ & St) & _ & Ln & _ & Tx &
                   _ & _ & Ck4 & _).
    cbn [counter start_time set_counter] in Cn, St.
    pose proof (calc_fps_spec st2 w4) as Cf.
    rewrite Cn, Ten in Cf. cbn [Z.eqb] in Cf. cbn zeta in Cf.
    assert (Rd : next (w_clock w4) = start_time st).
    { unfold next. rewrite Ck4, Ck, Nat.add_0_r. exact Stall. }
    rewrite Rd, St in Cf. unfold float_div in Cf.
    rewrite (sub_self_zero _ Fin) in Cf.
    destruct Cf as (w5 & E5 & Tr5).
    rewrite (bind_raise _ _ _ _ _ E5) in C. inversion C; subst r w'.
    exists w5, cevs. split; [reflexivity|].
    split; [rewrite Tr5, Tr4, Tr, <- !app_assoc; reflexivity|].
    split; [exact Fa|].
    unfold count. rewrite Tx, length_map. exact Ln.
  - exfalso. destruct F as (_ & _ & _ & c & l & Eq & Nk).
    rewrite Eq in Kn. inversion Kn. contradiction.
Qed.

Lemma stalled_clock_zero_division_witness :
  fst (loop_body Sample.ninth_frame Sample.stalled_clock) = Raise ZeroDivisionError.
Proof.
  edestruct (stalled_clock_zero_division Sample.ninth_frame Sample.stalled_clock
               Sample.shot) as (w' & cevs & E & _).
  - reflexivity.
  - reflexivity.
  - repeat constructor.
  - reflexivity.
  - reflexivity.
  - reflexivity.
  - rewrite E. reflexivity.
Defined.

(** X7: an iteration that runs to its end for a frame with [n] categories
    draws [n] result texts, all at the same place (50, 450), one over the
    other, and then the FPS text; it prints [2 n] lines and reads the clock
    [2 + n] times, and twice more when the counter is a multiple of 10.
    The frame it displays, unless the key 27 was read, is the mirrored
    frame, still in the channel order of the camera, with all these texts
    on it. *)
Theorem result_texts_overprint (st : Locals) (w : World) (img : frame)
    (group : Task.Classifications) (groups : list Task.Classifications)
    (fl : flow) (w' : World) :
  loop_body st w = (Ok fl, w') ->
  next (w_camera w) = Some img ->
  Task.classifications
    (next (w_classify w)
       (Task.create_from_array (cvtColor (flip img 1) COLOR_BGR2RGB))) =
    group :: groups ->
  let n := List.length (Task.categories group) in
  exists texts text evs,
    w_trace w' = (w_trace w ++ evs)%list /\
    List.length texts = n /\
    Forall (fun o => ov_org o = (50, 450)) texts /\
    filter is_text evs = map EvPutText (texts ++ [fps_overlay text])%list /\
    count is_print evs = (2 * n)%nat /\
    count is_time evs =
      (2 + n + (if ((counter st + 1) mod 10 =? 0)%Z then 2 else 0))%nat /\
    filter is_display evs =
      (if next (w_keys w) =? 27 then []
       else [EvImshow "image_classification"
               {| cv_pixels := flip img 1;
                  cv_texts := (texts ++ [fps_overlay text])%list |}]).
Proof.
  intros E Cam Gr n.
  destruct (loop_body_cases _ _ _ _ _ E Cam) as (w3 & Tr & _ & K3 & C).
  rewrite Gr in C.
  pose proof (show_results_full (next (rest (w_clock w))) (Task.categories group)
                (set_counter (counter st + 1) st) (blank (flip img 1)) w3) as F.
  destruct (for_each _ _ _ w3) as [[[st2 image]|x] w4];
    [|destruct C as [C _]; discriminate C].
  destruct F as (texts & cevs & Tr4 & Fa & (Cn & _ & _) & Im & Ln & Og & Tx &
                 Nt & Np & _ & K4 & _).
  cbn [counter set_counter] in Cn. cbn [blank cv_pixels cv_texts app] in Im.
  destruct (fps_tail_spec st2 image w4) as (tevs & Tr5 & Ft).
  rewrite C in Tr5, Ft. cbn [fst snd] in Tr5, Ft.
  rewrite K4, K3 in Ft.
  destruct (fps_tail_ok _ _ _ _ _ Ft) as (fevs & st3 & text & G & _ & _ & ->).
  exists texts, text. eexists.
  split; [rewrite Tr5, Tr4, Tr, <- !app_assoc; reflexivity|].
  split; [exact Ln|]. split; [exact Og|].
  destruct (cat_event_quiet _ Fa) as (_ & _ & _ & _ & Dq).
  assert (Fq : filter is_display cevs = []).
  { unfold count in Dq. destruct (filter is_display cevs); [reflexivity|].
    discriminate Dq. }
  rewrite Cn in G.
  assert (Fe : filter is_text fevs = [] /\ count is_print fevs = 0%nat /\
               filter is_display fevs = [] /\
               count is_time fevs =
                 (if ((counter st + 1) mod 10 =? 0)%Z then 2 else 0)%nat).
  { destruct G as [(-> & -> & _) | (-> & e & t & -> & _)];
      repeat split; reflexivity. }
  destruct Fe as (Ft0 & Fp0 & Fd0 & Ft1).
  split.
  { cbn [app filter is_text]. rewrite !filter_app, Tx, Ft0, map_app.
    cbn [app filter is_text map].
    destruct (next (w_keys w) =? 27); reflexivity. }
  split.
  { destruct (next (w_keys w) =? 27);
      repeat (rewrite count_cons || rewrite count_app || rewrite count_nil);
      cbn [is_print]; rewrite Np, Fp0; lia. }
  split.
  { destruct (next (w_keys w) =? 27);
      repeat (rewrite count_cons || rewrite count_app || rewrite count_nil);
      cbn [is_time]; rewrite Nt, Ft1; lia. }
  cbn [app filter is_display]. rewrite !filter_app, Fq, Fd0.
  cbn [app filter is_display].
  destruct (next (w_keys w) =? 27); [reflexivity|].
  cbn [filter is_display]. rewrite Im. reflexivity.
Qed.

Lemma result_texts_overprint_witness :
  exists texts text evs,
    w_trace (snd (loop_body Sample.blank_locals Sample.two_results)) = evs /\
    List.length texts = 2%nat /\
    Forall (fun o => ov_org o = (50, 450)) texts /\
    filter is_text evs = map EvPutText (texts ++ [fps_overlay text])%list /\
    count is_print evs = 4%nat /\
    count is_time evs = 4%nat /\
    filter is_display evs =
      [EvImshow "image_classification"
         {| cv_pixels := flip Sample.shot 1;
            cv_texts := (texts ++ [fps_overlay text])%list |}].
Proof.
  destruct (loop_body Sample.blank_locals Sample.two_results) as [r w'] eqn:E.
  assert (R : exists fl, r = Ok fl).
  { pose proof (f_equal fst E) as E1. cbn [fst] in E1. rewrite <- E1.
    vm_compute. eexists. reflexivity. }
  destruct R as [fl ->].
  exact (result_texts_overprint Sample.blank_locals Sample.two_results Sample.shot
           _ _ fl w' E eq_refl eq_refl).
Defined.

(** ** What is printed *)

Lemma append_assoc (a b c : string) : ((a ++ b) ++ c = a ++ (b ++ c))%string.
Proof.
  induction a as [|ch a IH]; [reflexivity|].
  cbn [append]. rewrite IH. reflexivity.
Qed.

(** The body of the [for] loop, with the two lines it prints. *)
Lemma show_category_lines (t1 : float) (st : Locals) (image : canvas)
    (c : Task.Category) (w : World) (name : string) :
  label_lookup (Task.index c) (category_name st) = Some name ->
  let o := result_overlay (result_text name (Task.score c)) in
  let now := next (w_clock w) in
  exists w',
    show_category t1 (st, image) c w =
      (Ok (set_category_name (Some name) st, draw image o), w') /\
    w_trace w' =
      (w_trace w ++
       [EvPutText o; EvTime now;
        EvPrint (">>  " ++ str_float (round_float ((now - t1) * 1000) 2) ++
                 "  ms ( Inference )" ++ newline);
        EvPrint (ov_text o ++ newline)])%list /\
    (forall k, w_clock w' k = w_clock w (S k)).
Proof.
  intros L o now. unfold show_category. rewrite L.
  eexists. split; [reflexivity|].
  split; [|intros k; reflexivity].
  cbn [w_trace emit fst snd]. rewrite <- !app_assoc. cbn [app].
  assert (S : forall d : string,
             (String.concat " " [">> "; d; " ms ("; "Inference"; ")"] ++ newline =
              ">>  " ++ d ++ "  ms ( Inference )" ++ newline)%string).
  { intros d. cbn [String.concat append]. rewrite !append_assoc. reflexivity. }
  rewrite S. reflexivity.
Qed.

(** X8: what the [for] loop over the categories prints.  For each
    category, in order: the line [>>  {d}  ms ( Inference )], with two
    spaces after [>>] and before [ms], where [d] is
    [round((now - start_t1) * 1000, 2)] and [now] is read from the clock
    after the text of this category was drawn, and then the result text
    that was drawn.  All the durations are measured from the same
    [start_t1], so the duration printed for a category includes the drawing
    and printing of the categories before it. *)
Theorem inference_lines_printed (t1 : float) (cats : list Task.Category) :
  forall (st : Locals) (image : canvas) (w : World)
         (st' : Locals) (image' : canvas) (w' : World),
  for_each (show_category t1) cats (st, image) w = (Ok (st', image'), w') ->
  exists texts evs,
    w_trace w' = (w_trace w ++ evs)%list /\
    cv_texts image' = (cv_texts image ++ texts)%list /\
    List.length texts = List.length cats /\
    readings evs = map (w_clock w) (seq 0 (List.length cats)) /\
    printed evs =
      flat_map
        (fun p : float * overlay =>
           [">>  " ++ str_float (round_float ((fst p - t1) * 1000) 2) ++
            "  ms ( Inference )" ++ newline;
            ov_text (snd p) ++ newline])
        (combine (readings evs) texts).
Proof.
  induction cats as [|c cats IH]; intros st image w st' image' w'.
  - cbn [for_each ret]. intros E. inversion E; subst.
    exists [], []. rewrite !app_nil_r. repeat split.
  - cbn [for_each].
    destruct (label_lookup (Task.index c) (category_name st)) as [name|] eqn:L.
    + destruct (show_category_lines t1 st image c w name L) as (w1 & E1 & T1 & Ck).
      rewrite (bind_ok _ _ _ _ _ E1). intros E.
      destruct (IH _ _ _ _ _ _ E) as (texts & evs & Tr & Im & Ln & Rd & Pr).
      exists (result_overlay (result_text name (Task.score c)) :: texts).
      eexists.
      split; [rewrite Tr, T1, <- app_assoc; reflexivity|].
      split; [rewrite Im; cbn [draw cv_texts]; rewrite <- app_assoc; reflexivity|].
      split; [cbn [List.length]; rewrite Ln; reflexivity|].
      assert (Sh : readings evs = map (w_clock w) (seq 1 (List.length cats))).
      { rewrite Rd, <- seq_shift, map_map. apply map_ext. exact Ck. }
      split.
      * cbn [app readings flat_map List.length seq map]. fold (readings evs).
        rewrite Sh. reflexivity.
      * cbn [app readings printed flat_map combine fst snd].
        fold (readings evs). fold (printed evs). rewrite Pr. reflexivity.
    + rewrite (bind_raise _ _ _ _ _ (show_category_unbound t1 st image c w L)).
      discriminate.
Qed.

Lemma inference_lines_printed_witness :
  printed (w_trace (snd (for_each (show_category 100)
                           [Sample.category 0 0.9; Sample.category 2 0.05]
                           (Sample.blank_locals, blank Sample.shot)
                           Sample.two_results))) =
    [">>  0.0  ms ( Inference )" ++ newline;
     " Classification Result >> hp 90.0%" ++ newline;
     ">>  250.0  ms ( Inference )" ++ newline;
     " Classification Result >> diki 5.0%" ++ newline].
Proof.
  destruct (for_each (show_category 100)
              [Sample.category 0 0.9; Sample.category 2 0.05]
              (Sample.blank_locals, blank Sample.shot) Sample.two_results)
    as [r w'] eqn:E.
  assert (R : exists st' image', r = Ok (st', image') /\
                map ov_text (cv_texts image') =
                  [" Classification Result >> hp 90.0%";
                   " Classification Result >> diki 5.0%"]).
  { pose proof (f_equal fst E) as E1. cbn [fst] in E1. rewrite <- E1.
    vm_compute. eexists _, _. split; reflexivity. }
  destruct R as (st' & image' & -> & Tx).
  destruct (inference_lines_printed _ _ _ _ _ _ _ _ E)
    as (texts & evs & Tr & Im & Ln & Rd & Pr).
  cbn [snd]. rewrite Tr. cbn [w_trace Sample.two_results Sample.world app].
  rewrite Pr, Rd. cbn [blank cv_texts app] in Im. rewrite Im in Tx.
  destruct texts as [|o1 [|o2 [|o3 texts]]]; try discriminate Ln.
  cbn [map] in Tx. inversion Tx as [[T1 T2]].
  cbn [List.length seq map combine flat_map fst snd app].
  rewrite T1, T2. vm_compute. reflexivity.
Defined.

(** ** The FPS text at the edges *)

(** X9: the FPS text of lines 133-138 for a float [f].  When [f] is NaN,
    [int(fps)] raises [ValueError]; when [f] is infinite, it raises
    [OverflowError]; for every other float, negative ones and zero
    included, the text is formatted.  And whatever the FPS is, an [int] or
    a [float], these lines never raise [ZeroDivisionError]: [1 / fps] is
    only computed when [fps > 0]. *)
Theorem fps_text_errors (f : float) :
  (if is_nan f then
     fps_text (Float f) =
       Raise (ValueError "cannot convert float NaN to integer")
   else if is_infinity f then
     fps_text (Float f) =
       Raise (OverflowError "cannot convert float infinity to integer")
   else exists text, fps_text (Float f) = Ok text) /\
  (forall n : num, fps_text n <> Raise ZeroDivisionError).
Proof.
  split.
  - assert (G : fps_ms_raw (Float f) = Ok (Int 0) \/
                fps_ms_raw (Float f) = Ok (Float (1 / f * 1000))).
    { destruct (0 <? f)%float eqn:P.
      - right. apply fps_ms_raw_positive, P.
      - left. unfold fps_ms_raw, gt0. rewrite P. reflexivity. }
    unfold is_nan, is_infinity. rewrite !eqb_spec, abs_spec.
    unfold fps_text, int.
    destruct (Prim2SF f) as [b|b| |s m e] eqn:P.
    + cbn. destruct b; destruct G as [-> | ->]; eexists; reflexivity.
    + replace (negb (SFeqb (S754_infinity b) (S754_infinity b))) with false
        by (destruct b; reflexivity).
      replace (SFeqb (SFabs (S754_infinity b)) (Prim2SF infinity)) with true
        by (destruct b; reflexivity).
      destruct G as [-> | ->]; reflexivity.
    + cbn. destruct G as [-> | ->]; reflexivity.
    + assert (N : negb (SFeqb (S754_finite s m e) (S754_finite s m e)) = false).
      { cbn [SFeqb SFcompare]. destruct s.
        - rewrite Z.compare_refl. rewrite Pos.compare_cont_refl. reflexivity.
        - rewrite Z.compare_refl. rewrite Pos.compare_cont_refl. reflexivity. }
      rewrite N.
      replace (SFeqb (SFabs (S754_finite s m e)) (Prim2SF infinity)) with false
        by reflexivity.
      destruct G as [-> | ->]; eexists; reflexivity.
  - intros n E. unfold fps_text in E.
    destruct (fps_ms_raw n) as [raw|x] eqn:Raw.
    + destruct n as [z|g]; cbn [int] in E; [discriminate E|].
      destruct (Prim2SF g); discriminate E.
    + inversion E; subst x. clear E. revert Raw.
      unfold fps_ms_raw. destruct (gt0 n) eqn:G; [|discriminate].
      destruct n as [z|g]; cbn [gt0] in G.
      * unfold truediv. destruct (Z.eqb_spec z 0) as [->|_]; [discriminate G|].
        destruct (is_infinity _); [discriminate|].
        unfold mul. rewrite float_of_int_1000. discriminate.
      * unfold truediv. rewrite float_of_int_1. unfold float_div.
        rewrite (positive_not_zero g G).
        unfold mul. rewrite float_of_int_1000. discriminate.
Qed.

(** ** The first window of the FPS *)

(** The frames a run has processed make a chain of FPS steps from the
    locals of the set-up. *)
Lemma main_fps_chain (fuel : nat) (a : Args) (w : World) :
  fps_chain (w_trace (snd (main fuel a w)))
    {| counter := 0; fps := Int 0; start_time := next (w_clock w);
       category_name := None |}
    (snd (fst (main fuel a w))).
Proof.
  unfold main, run.
  pose proof (setup_spec a w) as S.
  destruct (w_model w) as [msg|].
  - rewrite S. exact I.
  - destruct S as (w0 & o & -> & _).
    destruct (capture_loop fuel _ [] w0) as [[e seen'] w1] eqn:L.
    destruct (capture_loop_inv _ _ _ _ _ _ _ L)
      as (new & evs & -> & _ & _ & Ch & _).
    cbn [app].
    destruct e as [st'|[st'|x]]; cbn [fst snd]; try exact Ch.
    destruct (cleanup_spec w1) as (w2 & -> & T2). cbn [fst snd].
    rewrite T2. apply fps_chain_extend, Ch.
Qed.

(** Until the counter reaches 10 the window starts where it started. *)
Lemma fps_chain_first_window (tr : list event) (l : list Locals) (t0 : float) :
  forall prev,
    fps_chain tr prev l -> 0 <= counter prev ->
    (counter prev < 10 -> start_time prev = t0) ->
    forall st, In st l ->
      counter prev < counter st /\ (counter st < 10 -> start_time st = t0).
Proof.
  induction l as [|a l IH]; intros prev Ch P0 Z0 st I; [destruct I|].
  destruct Ch as [[C St] Ch].
  assert (A : counter a < 10 -> start_time a = t0).
  { intros L.
    replace (counter a mod 10 =? 0) with false in St.
    - destruct St as [_ ->]. apply Z0. lia.
    - symmetry. apply Z.eqb_neq. rewrite Z.mod_small; lia. }
  destruct I as [<- | I].
  - split; [lia | exact A].
  - destruct (IH a Ch ltac:(lia) A st I) as [L R]. split; [lia | exact R].
Qed.

(** X10: the first FPS value of a run, computed on the tenth frame, is
    [10 / (end_time - t0)] where [t0] is the very first reading of the
    clock in the run, taken in the set-up before the camera is opened: the
    first window covers the opening of the camera as well as the ten
    frames.  [end_time] and the start of the next window are two readings
    that follow each other in the trace. *)
Theorem first_fps_window (fuel : nat) (a : Args) (w : World) (cur : Locals) :
  nth_error (snd (fst (main fuel a w))) 9 = Some cur ->
  exists end_time pre post,
    fps cur = Float (10 / (end_time - next (w_clock w))) /\
    w_trace (snd (main fuel a w)) =
      (pre ++ EvTime end_time :: EvTime (start_time cur) :: post)%list.
Proof.
  intros N.
  pose proof (main_fps_chain fuel a w) as Ch.
  set (seen := snd (fst (main fuel a w))) in *.
  set (init := {| counter := 0; fps := Int 0; start_time := next (w_clock w);
                  category_name := None |}) in *.
  pose proof (fps_chain_nth _ _ _ _ _ Ch N) as [_ St].
  rewrite (fps_chain_counter _ _ _ _ _ Ch N) in St.
  cbn [counter init Z.of_nat Pos.of_succ_nat Pos.succ Z.add Pos.add Z.modulo
       Z.div_eucl] in St.
  change (0 + 9 + 1) with 10 in St. change (10 mod 10 =? 0) with true in St.
  cbn iota in St.
  destruct St as (end_time & pre & post & F & T).
  assert (Ln : (8 < List.length seen)%nat).
  { assert (9 < List.length seen)%nat by (apply nth_error_Some; congruence). lia. }
  assert (N8 : nth_error seen 8 = Some (nth 8 seen init)).
  { apply nth_error_nth'. exact Ln. }
  pose proof (fps_chain_counter _ _ _ _ _ Ch N8) as C8.
  cbn [counter init] in C8.
  destruct (fps_chain_first_window _ _ (next (w_clock w)) _ Ch
              ltac:(cbn; lia) ltac:(reflexivity) (nth 8 seen init)) as [_ W].
  { apply nth_In. exact Ln. }
  rewrite W in F by (rewrite C8; cbn; lia).
  exists end_time, pre, post. split; assumption.
Qed.

Lemma first_fps_window_witness :
  exists cur end_time,
    nth_error (snd (fst (main 12 default_args Sample.thirty_frames))) 9 =
      Some cur /\
    fps cur = Float (10 / (end_time - 100)).
Proof.
  edestruct (first_fps_window 12 default_args Sample.thirty_frames)
    as (e & pre & post & F & _).
  - vm_compute. reflexivity.
  - eexists _, e. split; [vm_compute; reflexivity|exact F].
Defined.
